(** * MCP demo servers: a shallow embedding of the tool servers

    The repository holds four server scripts that expose AWS operations as
    MCP tools:

    - [subprocess/mcp_server.py]: low-level [Server] with [list_tools] and
      [call_tool], run over stdio;
    - [subprocess-strands/mcp_server_strands.py]: [FastMCP] tools, stdio;
    - [local/mcp_server.py] and [local-strands/mcp_server_strands.py]:
      [FastMCP] tools over streamable HTTP.

    Python code is embedded as computations in a state-and-exception monad:
    the state carries the two output streams of the process, the backend
    (the AWS account the boto3 clients talk to) and the trace of backend
    operations invoked so far.  boto3, the [json] module and [str] on
    dictionaries are interfaces of the embedding (type classes). *)

From Stdlib Require Import String Ascii List ZArith Lia DecimalString DecimalNat.
From stdpp Require Import base gmap strings list.

Set Warnings "-register-all".

(** ** Python values, exceptions and the execution monad *)

Module Py.

(** JSON-like Python values, as they arrive in tool arguments and as
    [json.loads] produces them. *)
Inductive value :=
| VNone
| VBool (b : bool)
| VInt (z : Z)
| VStr (s : string)
| VList (l : list value)
| VDict (d : list (string * value)).

(** [bool(d)] for a dictionary: true iff it is not empty. *)
Definition truthy_dict (d : gmap string value) : bool :=
  negb (bool_decide (d = ∅)).

(** Whether [v] can be used as a dictionary key. *)
Definition hashable (v : value) : bool :=
  match v with
  | VList _ | VDict _ => false
  | _ => true
  end.

Definition type_name (v : value) : string :=
  match v with
  | VNone => "NoneType"
  | VBool _ => "bool"
  | VInt _ => "int"
  | VStr _ => "str"
  | VList _ => "list"
  | VDict _ => "dict"
  end.

(** The exceptions the servers meet; all of them derive from
    [Exception]. *)
Inductive exn :=
| KeyError (key : string)
| ValueError (msg : string)
| TypeError (msg : string)
| JSONDecodeError (msg : string)
| UnicodeDecodeError (msg : string)
| ClientError (msg : string).

(** [str(e)].  A [KeyError] prints the [repr] of the missing key. *)
Definition str_exn (e : exn) : string :=
  match e with
  | KeyError k => "'" +:+ k +:+ "'"
  | ValueError m | TypeError m | JSONDecodeError m
  | UnicodeDecodeError m | ClientError m => m
  end.

(** Result of a library call: a value or a raised exception. *)
Inductive result (A : Type) :=
| Ok (a : A)
| Err (e : exn).
Arguments Ok {A} a.
Arguments Err {A} e.

(** How a piece of Python code ends: it returns, it raises an
    [Exception], or it leaves the process through [sys.exit] (a
    [SystemExit], which [except Exception] does not catch). *)
Inductive outcome (A : Type) :=
| Return (a : A)
| Raise (e : exn)
| Exit (code : Z).
Arguments Return {A} a.
Arguments Raise {A} e.
Arguments Exit {A} code.

(** Backend operations, as recorded in the trace. *)
Inductive call :=
| CListBuckets
| CGetObject (bucket key : value)
| CPutObject (bucket key : string) (body : string)
| CListTables
| CGetItem (table key val : value)
| CPutItem (table : string) (item : value)
| CGetCallerIdentity.

Record state (W : Type) := mkState {
  stdout : list string;
  stderr : list string;
  calls : list call;
  world : W
}.
Arguments mkState {W} _ _ _ _.
Arguments stdout {W} _.
Arguments stderr {W} _.
Arguments calls {W} _.
Arguments world {W} _.

Definition M (W A : Type) : Type := state W -> outcome A * state W.

Definition ret {W A} (a : A) : M W A := fun s => (Return a, s).

Definition bind {W A B} (m : M W A) (k : A -> M W B) : M W B :=
  fun s =>
    match m s with
    | (Return a, s') => k a s'
    | (Raise e, s') => (Raise e, s')
    | (Exit c, s') => (Exit c, s')
    end.

Definition raise {W A} (e : exn) : M W A := fun s => (Raise e, s).

(** [sys.exit(code)] *)
Definition sys_exit {W A} (code : Z) : M W A := fun s => (Exit code, s).

(** [try: m except Exception as e: h e].  The handler runs in the state
    the body left behind; a [SystemExit] passes through. *)
Definition try_except {W A} (m : M W A) (h : exn -> M W A) : M W A :=
  fun s =>
    match m s with
    | (Raise e, s') => h e s'
    | r => r
    end.

(** [print(line, file=sys.stdout)] and [print(line, file=sys.stderr)] *)
Definition print_stdout {W} (line : string) : M W unit :=
  fun s => (Return tt, mkState (stdout s ++ [line]) (stderr s) (calls s) (world s)).

Definition print_stderr {W} (line : string) : M W unit :=
  fun s => (Return tt, mkState (stdout s) (stderr s ++ [line]) (calls s) (world s)).

(** A library call whose result does not depend on the backend. *)
Definition lift {W A} (r : result A) : M W A :=
  match r with
  | Ok a => ret a
  | Err e => raise e
  end.

(** A backend operation: it is recorded in the trace, then run on the
    backend, which it may change. *)
Definition invoke {W A} (c : call) (op : W -> result A * W) : M W A :=
  fun s =>
    let '(r, w) := op (world s) in
    let s' := mkState (stdout s) (stderr s) (calls s ++ [c]) w in
    match r with
    | Ok a => (Return a, s')
    | Err e => (Raise e, s')
    end.

(** [d[k]] on a dictionary *)
Definition getitem {W} (d : gmap string value) (k : string) : M W value :=
  match d !! k with
  | Some v => ret v
  | None => raise (KeyError k)
  end.

(** [str(n)] for a natural number such as [len(l)] *)
Definition str_nat (n : nat) : string :=
  NilZero.string_of_uint (Nat.to_uint n).

(** [sep.join(l)] *)
Definition join (sep : string) (l : list string) : string :=
  String.concat sep l.

(** The parts of the Python runtime that the servers use and that are
    not part of the repository. *)
Class Runtime := {
  (** [str(d)] on a dictionary *)
  str_dict : gmap string value -> string;
  (** [b.decode('utf-8')] *)
  decode_utf8 : string -> result string;
  (** [json.loads(s)] *)
  json_loads : string -> result value
}.

End Py.

Import Py.

Declare Scope py_scope.
Delimit Scope py_scope with py.
Notation "x <- m ;; k" := (bind m (fun x => k))
  (at level 100, m at next level, k at level 200, right associativity,
   only parsing) : py_scope.
Notation "m ;; k" := (bind m (fun _ => k))
  (at level 100, k at level 200, right associativity, only parsing) : py_scope.
Open Scope py_scope.

(** ** The boto3 surface the servers use *)

Module Boto3.

Record Bucket := { Name : string; CreationDate : string }.
Record ListBucketsOutput := { Buckets : list Bucket }.
(** [Body] holds the bytes that [response['Body'].read()] returns. *)
Record GetObjectOutput := { Body : string }.
Record ListTablesOutput := { TableNames : option (list string) }.
Record GetItemOutput := { Item : option (gmap string value) }.
Record CallerIdentity := { Account : string; Arn : string }.

(** The AWS account behind the clients: each operation answers or
    raises, and may change the account. *)
Class Backend (W : Type) := {
  list_buckets : W -> result ListBucketsOutput * W;
  get_object : value -> value -> W -> result GetObjectOutput * W;
  put_object : string -> string -> string -> W -> result unit * W;
  list_tables : W -> result ListTablesOutput * W;
  get_item : value -> value -> value -> W -> result GetItemOutput * W;
  put_item : string -> value -> W -> result unit * W;
  get_caller_identity : W -> result CallerIdentity * W
}.

(** [os.environ] *)
Abbreviation environ := (gmap string string).

Record Session := { profile_name : option string; region_name : string }.
Record Client := { service : string; client_region : string }.

(** Whether constructing a session or a client fails (unknown profile,
    missing SDK data, ...) is the SDK's business. *)
Class Sdk := {
  session_error : environ -> option string -> string -> option exn;
  client_error : environ -> string -> string -> option exn
}.

(** [boto3.client(service, region_name=region)] and
    [boto3.resource(service, region_name=region)]: the explicit region
    is the region of the client. *)
Definition client {sdk : Sdk} (env : environ) (svc region : string) : result Client :=
  match client_error env svc region with
  | Some e => Err e
  | None => Ok {| service := svc; client_region := region |}
  end.

(** [boto3.Session(profile_name=profile, region_name=region)] *)
Definition new_session {sdk : Sdk} (env : environ) (profile : option string)
    (region : string) : result Session :=
  match session_error env profile region with
  | Some e => Err e
  | None => Ok {| profile_name := profile; region_name := region |}
  end.

(** [session.client(service)]: the client takes the session's region. *)
Definition session_client {sdk : Sdk} (env : environ) (sess : Session)
    (svc : string) : result Client :=
  client env svc (region_name sess).

(** [dynamodb.Table(name)]: builds a handle, no request is sent.  boto3
    refuses a missing identifier. *)
Definition Table (name : value) : result value :=
  match name with
  | VNone => Err (ValueError "Required parameter name not set")
  | _ => Ok name
  end.

(** The dictionary display [{key: val}]. *)
Definition key_dict (key val : value) : result (value * value) :=
  if hashable key then Ok (key, val)
  else Err (TypeError ("unhashable type: '" +:+ type_name key +:+ "'")).

End Boto3.

Import Boto3.

(** ** MCP types ([mcp.types]) *)

Module Mcp.

(** The [inputSchema] dictionaries of the tools: the ["type"], the
    ["properties"] (parameter name and its ["type"]) and, when the key is
    there, the ["required"] list. *)
Record Schema := {
  schema_type : string;
  properties : list (string * string);
  required : option (list string)
}.

Record Tool := {
  name : string;
  description : string;
  inputSchema : Schema
}.

Record TextContent := { type : string; text : string }.

(** The parameters a schema marks as required; none when the key is
    absent. *)
Definition required_params (t : Tool) : list string :=
  default [] (required (inputSchema t)).

(** What a client sends once the session is initialised. *)
Inductive request :=
| ListTools
| CallTool (name : string) (arguments : gmap string value).

(** What the handler for a request produced. *)
Inductive response :=
| Tools (l : list Tool)
| Content (l : list TextContent)
| Failed (e : exn).

End Mcp.

Import Mcp.

(** ** [subprocess/mcp_server.py] *)

Module Subprocess.
Section Server.

Context {W : Type} {backend : Backend W} {runtime : Runtime} {sdk : Sdk}.

Definition log (message : string) : M W unit :=
  print_stderr ("[SERVER] " +:+ message).

(** The module-level [try] block that builds the two AWS clients. *)
Definition init_clients (env : environ) : M W (Client * Client) :=
  try_except
    (log "Initializing AWS clients..." ;;
     s3_client <- lift (client env "s3" "us-east-1") ;;
     dynamodb <- lift (client env "dynamodb" "us-east-1") ;;
     log "AWS clients initialized successfully" ;;
     ret (s3_client, dynamodb))
    (fun e =>
       log ("ERROR initializing AWS clients: " +:+ str_exn e) ;;
       sys_exit 1).

Definition tools : list Tool :=
  [ {| name := "list_s3_buckets";
       description := "List all S3 buckets";
       inputSchema := {| schema_type := "object";
                         properties := [];
                         required := None |} |};
    {| name := "get_s3_object";
       description := "Get an object from S3";
       inputSchema := {| schema_type := "object";
                         properties := [("bucket", "string"); ("key", "string")];
                         required := Some ["bucket"; "key"] |} |};
    {| name := "query_dynamodb";
       description := "Query a DynamoDB table";
       inputSchema := {| schema_type := "object";
                         properties := [("table_name", "string");
                                        ("key", "string");
                                        ("value", "string")];
                         required := Some ["table_name"; "key"; "value"] |} |} ].

Definition list_tools : M W (list Tool) :=
  log "list_tools called" ;;
  ret tools.

Definition text_content (t : string) : TextContent :=
  {| type := "text"; text := t |}.

(** The body of the inner [try] of the [get_s3_object] branch. *)
Definition get_s3_object_try (bucket key : value) : M W (list TextContent) :=
  response <- invoke (CGetObject bucket key) (get_object bucket key) ;;
  content <- lift (decode_utf8 (Body response)) ;;
  ret [text_content content].

(** The body of the inner [try] of the [query_dynamodb] branch. *)
Definition query_dynamodb_try (table_name key value : value)
    : M W (list TextContent) :=
  table <- lift (Table table_name) ;;
  k <- lift (key_dict key value) ;;
  response <- invoke (CGetItem table (fst k) (snd k))
                     (get_item table (fst k) (snd k)) ;;
  let item := default ∅ (Item response) in
  ret [text_content (str_dict item)].

Definition call_tool (name : string) (arguments : gmap string value)
    : M W (list TextContent) :=
  log ("call_tool: " +:+ name +:+ " with " +:+ str_dict arguments) ;;
  try_except
    (if String.eqb name "list_s3_buckets" then
       response <- invoke CListBuckets list_buckets ;;
       let buckets := map Name (Buckets response) in
       ret [text_content ("S3 Buckets: " +:+ join ", " buckets)]
     else if String.eqb name "get_s3_object" then
       bucket <- getitem arguments "bucket" ;;
       key <- getitem arguments "key" ;;
       try_except
         (get_s3_object_try bucket key)
         (fun e => ret [text_content ("Error: " +:+ str_exn e)])
     else if String.eqb name "query_dynamodb" then
       table_name <- getitem arguments "table_name" ;;
       key <- getitem arguments "key" ;;
       value <- getitem arguments "value" ;;
       try_except
         (query_dynamodb_try table_name key value)
         (fun e => ret [text_content ("Error: " +:+ str_exn e)])
     else
       raise (ValueError ("Unknown tool: " +:+ name)))
    (fun e =>
       log ("ERROR in call_tool: " +:+ str_exn e) ;;
       raise e).

(** [traceback.print_exc(file=sys.stderr)]; only the last line of the
    traceback, the exception itself, is kept. *)
Definition print_exc (e : exn) : M W unit :=
  print_stderr "Traceback (most recent call last):" ;;
  print_stderr (str_exn e).

(** The request loop of [app.run], which belongs to the MCP library: it
    hands each request to the registered handler and goes on after a
    handler has raised. *)
Definition handle (r : request) : M W response :=
  match r with
  | ListTools =>
      try_except (l <- list_tools ;; ret (Tools l)) (fun e => ret (Failed e))
  | CallTool name arguments =>
      try_except (l <- call_tool name arguments ;; ret (Content l))
                 (fun e => ret (Failed e))
  end.

Fixpoint app_run (reqs : list request) : M W (list response) :=
  match reqs with
  | [] => ret []
  | r :: reqs' =>
      x <- handle r ;;
      xs <- app_run reqs' ;;
      ret (x :: xs)
  end.

Definition main (reqs : list request) : M W (list response) :=
  try_except
    (log "Starting stdio server..." ;;
     log "stdio server started, running app..." ;;
     app_run reqs)
    (fun e =>
       log ("ERROR in main: " +:+ str_exn e) ;;
       print_exc e ;;
       raise e).

(** The whole script, run as [__main__] with environment [env] against
    a client that sends [reqs]. *)
Definition script (env : environ) (reqs : list request) : M W (list response) :=
  log "Starting AWS MCP Server..." ;;
  init_clients env ;;
  try_except
    (log "Running asyncio.run(main())..." ;;
     main reqs)
    (fun e =>
       log ("FATAL ERROR: " +:+ str_exn e) ;;
       print_exc e ;;
       sys_exit 1).

End Server.
End Subprocess.

(** ** [subprocess-strands/mcp_server_strands.py] *)

Module SubprocessStrands.
Section Server.

Context {W : Type} {backend : Backend W} {runtime : Runtime} {sdk : Sdk}.

Definition log (message : string) : M W unit :=
  print_stderr ("[SERVER] " +:+ message).

Definition init_clients (env : environ) : M W (Client * Client * Client) :=
  try_except
    (log "Initializing AWS clients..." ;;
     s3_client <- lift (client env "s3" "us-east-1") ;;
     dynamodb <- lift (client env "dynamodb" "us-east-1") ;;
     dynamodb_client <- lift (client env "dynamodb" "us-east-1") ;;
     log "AWS clients initialized successfully" ;;
     ret (s3_client, dynamodb, dynamodb_client))
    (fun e =>
       log ("ERROR initializing AWS clients: " +:+ str_exn e) ;;
       sys_exit 1).

Definition list_s3_buckets : M W string :=
  log "list_s3_buckets called" ;;
  try_except
    (response <- invoke CListBuckets list_buckets ;;
     let buckets := map Name (Buckets response) in
     let result := "S3 Buckets (" +:+ str_nat (length buckets) +:+ "): "
                   +:+ join ", " buckets in
     log ("Successfully listed " +:+ str_nat (length buckets) +:+ " buckets") ;;
     ret result)
    (fun e =>
       let error_msg := "Error listing S3 buckets: " +:+ str_exn e in
       log ("ERROR: " +:+ error_msg) ;;
       ret error_msg).

(** The body of the [try] of [get_s3_object]. *)
Definition get_s3_object_try (bucket key : string) : M W string :=
  response <- invoke (CGetObject (VStr bucket) (VStr key))
                     (get_object (VStr bucket) (VStr key)) ;;
  content <- lift (decode_utf8 (Body response)) ;;
  log ("Successfully retrieved object " +:+ key +:+ " from bucket " +:+ bucket) ;;
  ret content.

Definition get_s3_object (bucket key : string) : M W string :=
  log ("get_s3_object called: bucket=" +:+ bucket +:+ ", key=" +:+ key) ;;
  try_except
    (get_s3_object_try bucket key)
    (fun e =>
       let error_msg := "Error getting S3 object: " +:+ str_exn e in
       log ("ERROR: " +:+ error_msg) ;;
       ret error_msg).

(** [content.encode('utf-8')] is the identity on the bytes of the
    string. *)
Definition put_s3_object (bucket key content : string) : M W string :=
  log ("put_s3_object called: bucket=" +:+ bucket +:+ ", key=" +:+ key) ;;
  try_except
    (invoke (CPutObject bucket key content) (put_object bucket key content) ;;
     let result := "Successfully uploaded object to s3://" +:+ bucket +:+ "/" +:+ key in
     log result ;;
     ret result)
    (fun e =>
       let error_msg := "Error uploading to S3: " +:+ str_exn e in
       log ("ERROR: " +:+ error_msg) ;;
       ret error_msg).

Definition list_dynamodb_tables : M W string :=
  log "list_dynamodb_tables called" ;;
  try_except
    (response <- invoke CListTables list_tables ;;
     let tables := default [] (TableNames response) in
     let result := "DynamoDB Tables (" +:+ str_nat (length tables) +:+ "): "
                   +:+ join ", " tables in
     log ("Successfully listed " +:+ str_nat (length tables) +:+ " tables") ;;
     ret result)
    (fun e =>
       let error_msg := "Error listing DynamoDB tables: " +:+ str_exn e in
       log ("ERROR: " +:+ error_msg) ;;
       ret error_msg).

Definition query_dynamodb (table_name key value : string) : M W string :=
  log ("query_dynamodb called: table=" +:+ table_name +:+ ", key=" +:+ key
       +:+ ", value=" +:+ value) ;;
  try_except
    (table <- lift (Table (VStr table_name)) ;;
     k <- lift (key_dict (VStr key) (VStr value)) ;;
     response <- invoke (CGetItem table (fst k) (snd k))
                        (get_item table (fst k) (snd k)) ;;
     let item := default ∅ (Item response) in
     result <- (if truthy_dict item then
                  let result := "Found item: " +:+ str_dict item in
                  log "Successfully retrieved item" ;;
                  ret result
                else
                  let result := "No item found with " +:+ key +:+ "=" +:+ value in
                  log "No item found" ;;
                  ret result) ;;
     ret result)
    (fun e =>
       let error_msg := "Error querying DynamoDB: " +:+ str_exn e in
       log ("ERROR: " +:+ error_msg) ;;
       ret error_msg).

Definition put_dynamodb_item (table_name item_json : string) : M W string :=
  log ("put_dynamodb_item called: table=" +:+ table_name) ;;
  try_except
    (item <- lift (json_loads item_json) ;;
     table <- lift (Table (VStr table_name)) ;;
     invoke (CPutItem table_name item) (put_item table_name item) ;;
     let result := "Successfully put item into " +:+ table_name in
     log result ;;
     ret result)
    (fun e =>
       let error_msg := "Error putting item to DynamoDB: " +:+ str_exn e in
       log ("ERROR: " +:+ error_msg) ;;
       ret error_msg).

(** The functions decorated with [@mcp.tool()], in the order of the
    decorators, each with the arguments FastMCP passes to it. *)
Inductive tool_call :=
| ListS3Buckets
| GetS3Object (bucket key : string)
| PutS3Object (bucket key content : string)
| ListDynamodbTables
| QueryDynamodb (table_name key value : string)
| PutDynamodbItem (table_name item_json : string).

Definition run_tool (c : tool_call) : M W string :=
  match c with
  | ListS3Buckets => list_s3_buckets
  | GetS3Object bucket key => get_s3_object bucket key
  | PutS3Object bucket key content => put_s3_object bucket key content
  | ListDynamodbTables => list_dynamodb_tables
  | QueryDynamodb table_name key value => query_dynamodb table_name key value
  | PutDynamodbItem table_name item_json => put_dynamodb_item table_name item_json
  end.

(** [mcp.run()]: the library loop, handing each call to its tool. *)
Fixpoint mcp_run (reqs : list tool_call) : M W (list string) :=
  match reqs with
  | [] => ret []
  | c :: reqs' =>
      x <- run_tool c ;;
      xs <- mcp_run reqs' ;;
      ret (x :: xs)
  end.

Definition print_exc (e : exn) : M W unit :=
  print_stderr "Traceback (most recent call last):" ;;
  print_stderr (str_exn e).

Definition main (reqs : list tool_call) : M W (list string) :=
  log "Starting FastMCP server with stdio transport..." ;;
  try_except
    (mcp_run reqs)
    (fun e =>
       log ("FATAL ERROR: " +:+ str_exn e) ;;
       print_exc e ;;
       sys_exit 1).

Definition script (env : environ) (reqs : list tool_call) : M W (list string) :=
  log "Starting AWS MCP Server with FastMCP..." ;;
  init_clients env ;;
  main reqs.

End Server.
End SubprocessStrands.

(** ** [local/mcp_server.py] and [local-strands/mcp_server_strands.py] *)

(** The one-character string ["\n"]. *)
Definition nl : string := String (ascii_of_nat 10) EmptyString.

(** [if s:] on the result of [os.getenv]: [None] and the empty string are
    false. *)
Definition truthy_getenv (o : option string) : bool :=
  match o with
  | None => false
  | Some s => negb (String.eqb s "")
  end.

Module Local.
Section Server.

Context {W : Type} {backend : Backend W} {runtime : Runtime} {sdk : Sdk}.

Record clients := {
  session : Session;
  s3_client : Client;
  dynamodb : Client;
  sts : Client
}.

(** The module-level initialisation; these servers print to standard
    output, which the HTTP transport does not use. *)
Definition init_clients (env : environ) : M W clients :=
  let aws_profile := env !! "AWS_PROFILE" in
  let aws_region := default "us-east-1" (env !! "AWS_DEFAULT_REGION") in
  session <- (if truthy_getenv aws_profile then
                print_stdout ("Using AWS profile: " +:+ default "" aws_profile) ;;
                lift (new_session env aws_profile aws_region)
              else
                print_stdout "Using default AWS credentials" ;;
                lift (new_session env None aws_region)) ;;
  s3_client <- lift (session_client env session "s3") ;;
  dynamodb <- lift (session_client env session "dynamodb") ;;
  sts <- lift (session_client env session "sts") ;;
  identity <- invoke CGetCallerIdentity get_caller_identity ;;
  print_stdout ("AWS Account: " +:+ Account identity) ;;
  print_stdout ("AWS User/Role: " +:+ Arn identity) ;;
  ret {| session := session; s3_client := s3_client;
         dynamodb := dynamodb; sts := sts |}.

(** [f"S3 Buckets ({len(buckets)} total):\n" + "\n".join(f"  - {b}" for b in buckets)] *)
Definition format_buckets (buckets : list string) : string :=
  ("S3 Buckets (" +:+ str_nat (length buckets) +:+ " total):" +:+ nl)
  +:+ join nl (map (fun b => "  - " +:+ b) buckets).

Definition list_s3_buckets : M W string :=
  response <- invoke CListBuckets list_buckets ;;
  let buckets := map Name (Buckets response) in
  ret (format_buckets buckets).

Definition get_s3_object (bucket key : string) : M W string :=
  try_except
    (response <- invoke (CGetObject (VStr bucket) (VStr key))
                        (get_object (VStr bucket) (VStr key)) ;;
     content <- lift (decode_utf8 (Body response)) ;;
     ret content)
    (fun e => ret ("Error: " +:+ str_exn e)).

Definition query_dynamodb (table_name key value : string) : M W string :=
  try_except
    (table <- lift (Table (VStr table_name)) ;;
     k <- lift (key_dict (VStr key) (VStr value)) ;;
     response <- invoke (CGetItem table (fst k) (snd k))
                        (get_item table (fst k) (snd k)) ;;
     let item := default ∅ (Item response) in
     ret (str_dict item))
    (fun e => ret ("Error: " +:+ str_exn e)).

End Server.
End Local.

Module LocalStrands.
Section Server.

Context {W : Type} {backend : Backend W} {runtime : Runtime} {sdk : Sdk}.

Definition list_s3_buckets : M W string :=
  try_except
    (response <- invoke CListBuckets list_buckets ;;
     let buckets := map Name (Buckets response) in
     ret (Local.format_buckets buckets))
    (fun e => ret ("Error listing S3 buckets: " +:+ str_exn e)).

Definition query_dynamodb (table_name key value : string) : M W string :=
  try_except
    (table <- lift (Table (VStr table_name)) ;;
     k <- lift (key_dict (VStr key) (VStr value)) ;;
     response <- invoke (CGetItem table (fst k) (snd k))
                        (get_item table (fst k) (snd k)) ;;
     let item := default ∅ (Item response) in
     if truthy_dict item then
       ret ("Found item: " +:+ str_dict item)
     else
       ret ("No item found with " +:+ key +:+ "=" +:+ value))
    (fun e => ret ("Error querying DynamoDB: " +:+ str_exn e)).

Definition put_dynamodb_item (table_name item_json : string) : M W string :=
  try_except
    (item <- lift (json_loads item_json) ;;
     table <- lift (Table (VStr table_name)) ;;
     invoke (CPutItem table_name item) (put_item table_name item) ;;
     ret ("Successfully put item into " +:+ table_name))
    (fun e => ret ("Error putting item to DynamoDB: " +:+ str_exn e)).

Definition get_s3_object (bucket key : string) : M W string :=
  try_except
    (response <- invoke (CGetObject (VStr bucket) (VStr key))
                        (get_object (VStr bucket) (VStr key)) ;;
     content <- lift (decode_utf8 (Body response)) ;;
     ret content)
    (fun e => ret ("Error getting S3 object: " +:+ str_exn e)).

Definition put_s3_object (bucket key content : string) : M W string :=
  try_except
    (invoke (CPutObject bucket key content) (put_object bucket key content) ;;
     ret ("Successfully uploaded object to s3://" +:+ bucket +:+ "/" +:+ key))
    (fun e => ret ("Error uploading to S3: " +:+ str_exn e)).

(** [f"DynamoDB Tables ({len(tables)} total):\n" + "\n".join(f"  - {t}" for t in tables)] *)
Definition format_tables (tables : list string) : string :=
  ("DynamoDB Tables (" +:+ str_nat (length tables) +:+ " total):" +:+ nl)
  +:+ join nl (map (fun t => "  - " +:+ t) tables).

Definition list_dynamodb_tables : M W string :=
  try_except
    (response <- invoke CListTables list_tables ;;
     let tables := default [] (TableNames response) in
     ret (format_tables tables))
    (fun e => ret ("Error listing DynamoDB tables: " +:+ str_exn e)).

(** The tools of this server, by the call FastMCP hands to them. *)
Definition run_tool (c : SubprocessStrands.tool_call) : M W string :=
  match c with
  | SubprocessStrands.ListS3Buckets => list_s3_buckets
  | SubprocessStrands.GetS3Object bucket key => get_s3_object bucket key
  | SubprocessStrands.PutS3Object bucket key content =>
      put_s3_object bucket key content
  | SubprocessStrands.ListDynamodbTables => list_dynamodb_tables
  | SubprocessStrands.QueryDynamodb table_name key value =>
      query_dynamodb table_name key value
  | SubprocessStrands.PutDynamodbItem table_name item_json =>
      put_dynamodb_item table_name item_json
  end.

Record clients := {
  session : Session;
  s3_client : Client;
  dynamodb : Client;
  dynamodb_client : Client;
  sts : Client
}.

(** The module-level initialisation of [local-strands/mcp_server_strands.py]. *)
Definition init_clients (env : environ) : M W clients :=
  let aws_profile := env !! "AWS_PROFILE" in
  let aws_region := default "us-east-1" (env !! "AWS_DEFAULT_REGION") in
  session <- (if truthy_getenv aws_profile then
                print_stdout ("Using AWS profile: " +:+ default "" aws_profile) ;;
                lift (new_session env aws_profile aws_region)
              else
                print_stdout "Using default AWS credentials" ;;
                lift (new_session env None aws_region)) ;;
  s3_client <- lift (session_client env session "s3") ;;
  dynamodb <- lift (session_client env session "dynamodb") ;;
  dynamodb_client <- lift (session_client env session "dynamodb") ;;
  sts <- lift (session_client env session "sts") ;;
  identity <- invoke CGetCallerIdentity get_caller_identity ;;
  print_stdout ("AWS Account: " +:+ Account identity) ;;
  print_stdout ("AWS User/Role: " +:+ Arn identity) ;;
  ret {| session := session; s3_client := s3_client; dynamodb := dynamodb;
         dynamodb_client := dynamodb_client; sts := sts |}.

End Server.
End LocalStrands.

(** ** [subprocess/mcp_client.py]: the configuration it shows and passes on *)

Module SubprocessClient.

(** [env = os.environ.copy()], handed to the server process through
    [StdioServerParameters(env=env)]. *)
Definition server_env (os_environ : environ) : environ := os_environ.

(** [env.get("AWS_PROFILE", "default")] *)
Definition aws_profile (env : environ) : string :=
  default "default" (env !! "AWS_PROFILE").

(** [env.get("AWS_DEFAULT_REGION", env.get("AWS_REGION", "us-east-1"))],
    printed as the AWS region being used. *)
Definition aws_region (env : environ) : string :=
  default (default "us-east-1" (env !! "AWS_REGION")) (env !! "AWS_DEFAULT_REGION").

End SubprocessClient.

(** The status a process ends with. *)
Definition exit_status {A} (o : outcome A) : Z :=
  match o with
  | Return _ => 0
  | Raise _ => 1
  | Exit c => c
  end.

(** ** An in-memory AWS account

    A small executable backend: buckets with their objects, tables with
    their items, and a switch that makes every request fail.  It is the
    backend on which the servers are run on concrete inputs. *)

Module Mem.

Record account := {
  acc_buckets : list (string * list (string * string));
  acc_tables : list (string * list (gmap string value));
  acc_down : bool
}.

Definition unreachable : exn :=
  ClientError "Could not connect to the endpoint URL".

Fixpoint assoc {A} (k : string) (l : list (string * A)) : option A :=
  match l with
  | [] => None
  | (k', a) :: l' => if String.eqb k k' then Some a else assoc k l'
  end.

Fixpoint assoc_set {A} (k : string) (a : A) (l : list (string * A))
    : list (string * A) :=
  match l with
  | [] => [(k, a)]
  | (k', a') :: l' =>
      if String.eqb k k' then (k, a) :: l' else (k', a') :: assoc_set k a l'
  end.

Definition mem_list_buckets (w : account) : result ListBucketsOutput * account :=
  if acc_down w then (Err unreachable, w)
  else (Ok {| Buckets := map (fun b => {| Name := fst b; CreationDate := "" |})
                             (acc_buckets w) |}, w).

Definition mem_get_object (bucket key : value) (w : account)
    : result GetObjectOutput * account :=
  if acc_down w then (Err unreachable, w)
  else match bucket, key with
       | VStr b, VStr k =>
           match assoc b (acc_buckets w) with
           | None => (Err (ClientError "NoSuchBucket"), w)
           | Some objs =>
               match assoc k objs with
               | None => (Err (ClientError "NoSuchKey"), w)
               | Some body => (Ok {| Body := body |}, w)
               end
           end
       | _, _ => (Err (ClientError "Parameter validation failed"), w)
       end.

Definition mem_put_object (bucket key body : string) (w : account)
    : result unit * account :=
  if acc_down w then (Err unreachable, w)
  else match assoc bucket (acc_buckets w) with
       | None => (Err (ClientError "NoSuchBucket"), w)
       | Some objs =>
           (Ok tt, {| acc_buckets := assoc_set bucket (assoc_set key body objs)
                                               (acc_buckets w);
                      acc_tables := acc_tables w;
                      acc_down := acc_down w |})
       end.

Definition mem_list_tables (w : account) : result ListTablesOutput * account :=
  if acc_down w then (Err unreachable, w)
  else (Ok {| TableNames := Some (map fst (acc_tables w)) |}, w).

Definition has_key (k s : string) (item : gmap string value) : bool :=
  match item !! k with
  | Some (VStr s') => String.eqb s s'
  | _ => false
  end.

Definition mem_get_item (table key val : value) (w : account)
    : result GetItemOutput * account :=
  if acc_down w then (Err unreachable, w)
  else match table, key, val with
       | VStr t, VStr k, VStr s =>
           match assoc t (acc_tables w) with
           | None => (Err (ClientError "ResourceNotFoundException"), w)
           | Some items => (Ok {| Item := find (has_key k s) items |}, w)
           end
       | _, _, _ => (Err (ClientError "Parameter validation failed"), w)
       end.

Definition mem_put_item (table : string) (item : value) (w : account)
    : result unit * account :=
  if acc_down w then (Err unreachable, w)
  else match item with
       | VDict d =>
           match assoc table (acc_tables w) with
           | None => (Err (ClientError "ResourceNotFoundException"), w)
           | Some items =>
               (Ok tt, {| acc_buckets := acc_buckets w;
                          acc_tables := assoc_set table (list_to_map d :: items)
                                                  (acc_tables w);
                          acc_down := acc_down w |})
           end
       | _ => (Err (ClientError "Parameter validation failed"), w)
       end.

Definition mem_get_caller_identity (w : account)
    : result CallerIdentity * account :=
  if acc_down w then (Err unreachable, w)
  else (Ok {| Account := "000000000000";
              Arn := "arn:aws:iam::000000000000:user/demo" |}, w).

#[export] Instance backend : Backend account := {
  list_buckets := mem_list_buckets;
  get_object := mem_get_object;
  put_object := mem_put_object;
  list_tables := mem_list_tables;
  get_item := mem_get_item;
  put_item := mem_put_item;
  get_caller_identity := mem_get_caller_identity
}.

(** A runtime for the runs: dictionaries print their keys, only ASCII
    decodes, and [json.loads] knows the four shortest documents. *)
Definition is_ascii (s : string) : bool :=
  forallb (fun c => Nat.ltb (nat_of_ascii c) 128) (list_ascii_of_string s).

#[export] Instance runtime : Runtime := {
  str_dict d := "{" +:+ join ", " (map (fun kv => "'" +:+ fst kv +:+ "': ...")
                                       (map_to_list d)) +:+ "}";
  decode_utf8 b :=
    if is_ascii b then Ok b
    else Err (UnicodeDecodeError "'utf-8' codec can't decode byte");
  json_loads s :=
    if String.eqb s "{}" then Ok (VDict [])
    else if String.eqb s "null" then Ok VNone
    else if String.eqb s "true" then Ok (VBool true)
    else if String.eqb s "false" then Ok (VBool false)
    else Err (JSONDecodeError "Expecting value: line 1 column 1 (char 0)")
}.

(** An SDK on which construction always succeeds, and one on which the
    DynamoDB client cannot be built. *)
Definition sdk_ok : Sdk := {|
  session_error _ _ _ := None;
  client_error _ _ _ := None
|}.

Definition sdk_no_dynamodb : Sdk := {|
  session_error _ _ _ := None;
  client_error _ svc _ :=
    if String.eqb svc "dynamodb"
    then Some (ValueError "Unknown service: 'dynamodb'")
    else None
|}.

Definition demo : account := {|
  acc_buckets := [("logs", [("a.txt", "hello")]); ("media", [])];
  acc_tables := [("users", [ {[ "id" := VStr "7"; "name" := VStr "ada" ]};
                             {[ "id" := VStr "8" ]} ])];
  acc_down := false
|}.

Definition start (w : account) : state account :=
  mkState [] [] [] w.

End Mem.

(** ** A backend with canned answers

    Every operation answers what the record says and changes nothing, as
    a stubbed boto3 client does. *)

Module Stub.

Record canned := {
  on_list_buckets : result ListBucketsOutput;
  on_get_object : result GetObjectOutput;
  on_put_object : result unit;
  on_list_tables : result ListTablesOutput;
  on_get_item : result GetItemOutput;
  on_put_item : result unit;
  on_get_caller_identity : result CallerIdentity
}.

#[export] Instance backend : Backend canned := {
  list_buckets w := (on_list_buckets w, w);
  get_object _ _ w := (on_get_object w, w);
  put_object _ _ _ w := (on_put_object w, w);
  list_tables w := (on_list_tables w, w);
  get_item _ _ _ w := (on_get_item w, w);
  put_item _ _ w := (on_put_item w, w);
  get_caller_identity w := (on_get_caller_identity w, w)
}.

Definition denied : exn := ClientError "AccessDenied".

(** Everything is denied, except what a test overrides. *)
Definition all_denied : canned := {|
  on_list_buckets := Err denied;
  on_get_object := Err denied;
  on_put_object := Err denied;
  on_list_tables := Err denied;
  on_get_item := Err denied;
  on_put_item := Err denied;
  on_get_caller_identity := Err denied
|}.

Definition with_buckets (names : list string) : canned := {|
  on_list_buckets :=
    Ok {| Buckets := map (fun n => {| Name := n; CreationDate := "" |}) names |};
  on_get_object := Err denied;
  on_put_object := Err denied;
  on_list_tables := Err denied;
  on_get_item := Err denied;
  on_put_item := Err denied;
  on_get_caller_identity := Err denied
|}.

Definition with_item (item : option (gmap string value)) : canned := {|
  on_list_buckets := Err denied;
  on_get_object := Err denied;
  on_put_object := Err denied;
  on_list_tables := Err denied;
  on_get_item := Ok {| Item := item |};
  on_put_item := Err denied;
  on_get_caller_identity := Err denied
|}.

Definition start (w : canned) : state canned :=
  mkState [] [] [] w.

End Stub.

(** ** Observations on runs and on returned text *)

(** The descriptor of [get_s3_object] as [list_tools] gives it. *)
Definition get_s3_object_tool : Tool :=
  {| Mcp.name := "get_s3_object";
     description := "Get an object from S3";
     inputSchema := {| schema_type := "object";
                       properties := [("bucket", "string"); ("key", "string")];
                       required := Some ["bucket"; "key"] |} |}.


(** The state after [lines] went to standard error and nothing else
    happened. *)
Definition logged {W} (s : state W) (lines : list string) : state W :=
  mkState (stdout s) (stderr s ++ lines) (calls s) (world s).

(** The state after the backend operation [c] was invoked and left the
    backend as [w]. *)
Definition called {W} (s : state W) (c : call) (w : W) : state W :=
  mkState (stdout s) (stderr s) (calls s ++ [c]) w.

(** A computation that leaves standard output as it found it. *)
Definition quiet {W A} (m : M W A) : Prop :=
  forall s, stdout (snd (m s)) = stdout s.

(** A computation that never leaves the process. *)
Definition stays {W A} (m : M W A) : Prop :=
  forall s c, fst (m s) <> Exit c.

(** Reading a count back from a returned text: the decimal number that
    follows the first opening parenthesis. *)
Definition is_digit (c : ascii) : bool :=
  Nat.leb 48 (nat_of_ascii c) && Nat.leb (nat_of_ascii c) 57.

(** The text that follows the first occurrence of the character [c]. *)
Fixpoint after_char (c : ascii) (s : string) : option string :=
  match s with
  | EmptyString => None
  | String x s' => if Ascii.eqb x c then Some s' else after_char c s'
  end.

Fixpoint digits (s : string) : string :=
  match s with
  | EmptyString => EmptyString
  | String c s' => if is_digit c then String c (digits s') else EmptyString
  end.

Definition embedded_count (s : string) : option nat :=
  match after_char "("%char s with
  | None => None
  | Some rest => Nat.of_uint <$> NilZero.uint_of_string (digits rest)
  end.

(** Reading the names back from a returned text.  [split sep s] cuts [s]
    at every occurrence of the non-empty separator [sep], as [s.split(sep)]
    does: [skip] counts the characters of a separator still to be passed
    over, [cur] is the piece being read. *)
Fixpoint split_go (sep : string) (skip : nat) (cur s : string) : list string :=
  match s with
  | EmptyString => [cur]
  | String c s' =>
      match skip with
      | S k => split_go sep k cur s'
      | O =>
          if String.prefix sep s
          then cur :: split_go sep (String.length sep - 1) EmptyString s'
          else split_go sep 0 (cur +:+ String c EmptyString) s'
      end
  end.

Definition split (sep s : string) : list string :=
  split_go sep 0 EmptyString s.

(** [s[n:]] *)
Fixpoint drop_chars (n : nat) (s : string) : string :=
  match n, s with
  | O, _ => s
  | S k, String _ s' => drop_chars k s'
  | S _, EmptyString => EmptyString
  end.

(** The names of a text in the form ["<header>: a, b, c"]. *)
Definition listed_names (text : string) : list string :=
  match after_char ":"%char text with
  | None => []
  | Some rest =>
      let body := drop_chars 1 rest in
      if String.eqb body "" then [] else split ", " body
  end.

(** The names of a text in the form of a header line followed by one
    ["  - name"] line for each name. *)
Definition listed_lines (text : string) : list string :=
  match after_char (ascii_of_nat 10) text with
  | None => []
  | Some body =>
      if String.eqb body "" then [] else map (drop_chars 4) (split nl body)
  end.

(** Whether the character [c] does not occur in [s]. *)
Fixpoint free_of (c : ascii) (s : string) : bool :=
  match s with
  | EmptyString => true
  | String x s' => negb (Ascii.eqb x c) && free_of c s'
  end.

(** A bucket name that is not empty and holds neither a comma nor a line
    break (S3 allows lower-case letters, digits, dots and hyphens). *)
Definition plain_name (n : string) : bool :=
  negb (String.eqb n "") && free_of ","%char n && free_of (ascii_of_nat 10) n.

(** ** Further observations *)


(** The request that a call of a FastMCP tool sends to the backend; none
    when [json.loads] refuses the item of [put_dynamodb_item]. *)
Definition tool_request {runtime : Runtime} (c : SubprocessStrands.tool_call)
    : option call :=
  match c with
  | SubprocessStrands.ListS3Buckets => Some CListBuckets
  | SubprocessStrands.GetS3Object bucket key =>
      Some (CGetObject (VStr bucket) (VStr key))
  | SubprocessStrands.PutS3Object bucket key content =>
      Some (CPutObject bucket key content)
  | SubprocessStrands.ListDynamodbTables => Some CListTables
  | SubprocessStrands.QueryDynamodb table_name key value =>
      Some (CGetItem (VStr table_name) (VStr key) (VStr value))
  | SubprocessStrands.PutDynamodbItem table_name item_json =>
      match json_loads item_json with
      | Ok item => Some (CPutItem table_name item)
      | Err _ => None
      end
  end.

(** A computation that sends at most one request to the backend, and only
    one that satisfies [ok]. *)
Definition sends {W A} (ok : call -> bool) (m : M W A) : Prop :=
  forall s, calls (snd (m s)) = calls s
            \/ exists c, ok c = true /\ calls (snd (m s)) = calls s ++ [c].

(** A computation that always returns: it neither raises nor leaves the
    process. *)
Definition returns {W A} (m : M W A) : Prop :=
  forall s, exists a s', m s = (Return a, s').

(** The arguments of a [call_tool] request that carries exactly the
    strings a FastMCP tool would get. *)
Definition object_arguments (bucket key : string) : gmap string value :=
  {[ "bucket" := VStr bucket; "key" := VStr key ]}.

Definition query_arguments (table_name key val : string) : gmap string value :=
  {[ "table_name" := VStr table_name; "key" := VStr key; "value" := VStr val ]}.

(** ** The clients behind the tools

    A boto3 operation is a method of a client: [s3_client.get_object],
    [dynamodb.Table(...).get_item], [dynamodb_client.list_tables].
    [through c] is the backend as it is reached through the client [c];
    [with_clients] is the backend that the tools of a server work on, given
    the clients that the server built at start-up: the S3 operations go
    through [s3_client], the item operations through [dynamodb] and
    [list_tables] through [dynamodb_client].  No tool calls
    [get_caller_identity]; it is left with [s3_client]. *)
Class Endpoints (W : Type) := { through : Client -> Backend W }.

Definition with_clients {W} {endpoints : Endpoints W}
    (s3_client dynamodb dynamodb_client : Client) : Backend W := {|
  list_buckets := @list_buckets W (through s3_client);
  get_object := @get_object W (through s3_client);
  put_object := @put_object W (through s3_client);
  list_tables := @list_tables W (through dynamodb_client);
  get_item := @get_item W (through dynamodb);
  put_item := @put_item W (through dynamodb);
  get_caller_identity := @get_caller_identity W (through s3_client)
|}.

(** An account with one in-memory part for each region; a client works on
    the part of its region. *)
Definition put_region {W} (r : string) (w : W) (c : string -> W) : string -> W :=
  fun r' => if String.eqb r' r then w else c r'.

Definition in_region {W A} (r : string) (op : W -> result A * W)
    : (string -> W) -> result A * (string -> W) :=
  fun c => let '(x, w) := op (c r) in (x, put_region r w c).

Definition regional {W} {backend : Backend W} (r : string) : Backend (string -> W) := {|
  list_buckets := in_region r list_buckets;
  get_object bucket key := in_region r (get_object bucket key);
  put_object bucket key body := in_region r (put_object bucket key body);
  list_tables := in_region r list_tables;
  get_item table key val := in_region r (get_item table key val);
  put_item table item := in_region r (put_item table item);
  get_caller_identity := in_region r get_caller_identity
|}.

Definition regions : Endpoints (string -> Mem.account) :=
  {| through c := regional (backend := Mem.backend) (client_region c) |}.

(** The demo account in [us-east-1], nothing elsewhere. *)
Definition demo_regions : string -> Mem.account :=
  fun r => if String.eqb r "us-east-1" then Mem.demo
           else {| Mem.acc_buckets := []; Mem.acc_tables := []; Mem.acc_down := false |}.

(** ** The registry behind [@mcp.tool()] *)

Module Registry.
Section Registry.

Context {E : Type} (entry_name : E -> string).

Inductive error :=
| DuplicateNameError (n : string)
| UnknownToolError (n : string).

(** Modelled from the spec: the tool registry of FastMCP, which holds the
    functions decorated with [@mcp.tool()] and is not part of the
    repository.  Section 4.1 of the spec: [lookup] gives the tool of a
    name or fails with [UnknownToolError]. *)
Definition lookup (n : string) (r : list E) : error + E :=
  match find (fun e => String.eqb (entry_name e) n) r with
  | Some e => inr e
  | None => inl (UnknownToolError n)
  end.

(** Modelled from the spec: registration in the registry of FastMCP, which
    is not part of the repository.  Section 4.1 of the spec: [register]
    fails with [DuplicateNameError] when the name is already present, and
    otherwise adds the tool after those registered before it. *)
Definition register (e : E) (r : list E) : error + list E :=
  match lookup (entry_name e) r with
  | inr _ => inl (DuplicateNameError (entry_name e))
  | inl _ => inr (r ++ [e])
  end.

(** The decorators of a script, run from top to bottom. *)
Fixpoint register_all (es : list E) (r : list E) : error + list E :=
  match es with
  | [] => inr r
  | e :: es' =>
      match register e r with
      | inr r' => register_all es' r'
      | inl err => inl err
      end
  end.

(** Modelled from the spec: listing of the registry of FastMCP, which is
    not part of the repository.  Section 4.1 of the spec: [list] gives all
    descriptors in registration order. *)
Definition list_all (r : list E) : list E := r.

(** What a client may ask of the registry once the server runs; neither
    request changes the registry. *)
Inductive query :=
| QList
| QLookup (n : string).

Inductive answer :=
| AList (es : list E)
| AFound (e : E)
| AError (err : error).

Definition ask (r : list E) (q : query) : answer :=
  match q with
  | QList => AList (list_all r)
  | QLookup n =>
      match lookup n r with
      | inr e => AFound e
      | inl err => AError err
      end
  end.

End Registry.
End Registry.

(** The functions that the FastMCP scripts decorate with [@mcp.tool()],
    in the order of the decorators: name, parameters and first line of the
    docstring. *)
Record decorated := {
  fn_name : string;
  fn_params : list string;
  fn_summary : string
}.

(** [subprocess-strands/mcp_server_strands.py] and
    [local-strands/mcp_server_strands.py] decorate the same six functions
    in the same order. *)
Definition strands_decorated : list decorated :=
  [ {| fn_name := "list_s3_buckets"; fn_params := [];
       fn_summary := "List all S3 buckets in your AWS account." |};
    {| fn_name := "get_s3_object"; fn_params := ["bucket"; "key"];
       fn_summary := "Get an object from an S3 bucket." |};
    {| fn_name := "put_s3_object"; fn_params := ["bucket"; "key"; "content"];
       fn_summary := "Upload content to an S3 bucket." |};
    {| fn_name := "list_dynamodb_tables"; fn_params := [];
       fn_summary := "List all DynamoDB tables in your AWS account." |};
    {| fn_name := "query_dynamodb"; fn_params := ["table_name"; "key"; "value"];
       fn_summary := "Query a DynamoDB table by partition key." |};
    {| fn_name := "put_dynamodb_item"; fn_params := ["table_name"; "item_json"];
       fn_summary := "Put an item into a DynamoDB table." |} ].

(** [local/mcp_server.py] decorates three. *)
Definition local_decorated : list decorated :=
  [ {| fn_name := "list_s3_buckets"; fn_params := [];
       fn_summary := "List all S3 buckets" |};
    {| fn_name := "get_s3_object"; fn_params := ["bucket"; "key"];
       fn_summary := "Get an object from S3" |};
    {| fn_name := "query_dynamodb"; fn_params := ["table_name"; "key"; "value"];
       fn_summary := "Query a DynamoDB table" |} ].

(** ** [subprocess/mcp_server.py] with the request loop left open

    [app.run] belongs to the MCP library.  Here the script is taken with
    any computation [loop] in its place. *)

Module SubprocessLoop.
Section Server.

Context {W : Type} {backend : Backend W} {runtime : Runtime} {sdk : Sdk}.



End Server.
End SubprocessLoop.

(** * Properties of the embedding *)

(** ** Laws of the execution monad *)

Section MonadLaws.

Context {W : Type}.

Lemma quiet_ret {A} (a : A) : quiet (W := W) (ret a).
Proof. intros s. reflexivity. Qed.

Lemma quiet_raise {A} e : quiet (W := W) (A := A) (raise e).
Proof. intros s. reflexivity. Qed.

Lemma quiet_sys_exit {A} c : quiet (W := W) (A := A) (sys_exit c).
Proof. intros s. reflexivity. Qed.

Lemma quiet_print_stderr line : quiet (W := W) (print_stderr line).
Proof. intros s. reflexivity. Qed.

Lemma quiet_lift {A} (r : result A) : quiet (W := W) (lift r).
Proof. intros s. destruct r; reflexivity. Qed.

Lemma quiet_getitem d k : quiet (W := W) (getitem d k).
Proof. intros s. unfold getitem. destruct (d !! k); reflexivity. Qed.

Lemma quiet_invoke {A} c (op : W -> result A * W) : quiet (invoke c op).
Proof.
  intros s. unfold invoke. destruct (op (world s)) as [[a | e] w]; reflexivity.
Qed.

Lemma quiet_bind {A B} (m : M W A) (k : A -> M W B) :
  quiet m -> (forall a, quiet (k a)) -> quiet (bind m k).
Proof.
  intros Hm Hk s. unfold bind. specialize (Hm s).
  destruct (m s) as [[a | e | c] s']; simpl in *; try assumption.
  rewrite Hk. assumption.
Qed.

Lemma quiet_try_except {A} (m : M W A) (h : exn -> M W A) :
  quiet m -> (forall e, quiet (h e)) -> quiet (try_except m h).
Proof.
  intros Hm Hh s. unfold try_except. specialize (Hm s).
  destruct (m s) as [[a | e | c] s']; simpl in *; try assumption.
  rewrite Hh. assumption.
Qed.

Lemma quiet_if {A} (b : bool) (m1 m2 : M W A) :
  quiet m1 -> quiet m2 -> quiet (if b then m1 else m2).
Proof. destruct b; auto. Qed.

Lemma stays_ret {A} (a : A) : stays (W := W) (ret a).
Proof. intros s c. discriminate. Qed.

Lemma stays_raise {A} e : stays (W := W) (A := A) (raise e).
Proof. intros s c. discriminate. Qed.

Lemma stays_print_stderr line : stays (W := W) (print_stderr line).
Proof. intros s c. discriminate. Qed.

Lemma stays_lift {A} (r : result A) : stays (W := W) (lift r).
Proof. intros s c. destruct r; discriminate. Qed.

Lemma stays_getitem d k : stays (W := W) (getitem d k).
Proof. intros s c. unfold getitem. destruct (d !! k); discriminate. Qed.

Lemma stays_invoke {A} c (op : W -> result A * W) : stays (invoke c op).
Proof.
  intros s x. unfold invoke.
  destruct (op (world s)) as [[a | e] w]; discriminate.
Qed.

Lemma stays_bind {A B} (m : M W A) (k : A -> M W B) :
  stays m -> (forall a, stays (k a)) -> stays (bind m k).
Proof.
  intros Hm Hk s c. unfold bind. specialize (Hm s).
  destruct (m s) as [[a | e | c'] s']; simpl in *.
  - apply Hk.
  - discriminate.
  - exfalso. apply (Hm c'). reflexivity.
Qed.

Lemma stays_try_except {A} (m : M W A) (h : exn -> M W A) :
  stays m -> (forall e, stays (h e)) -> stays (try_except m h).
Proof.
  intros Hm Hh s c. unfold try_except. specialize (Hm s).
  destruct (m s) as [[a | e | c'] s']; simpl in *.
  - discriminate.
  - apply Hh.
  - exfalso. apply (Hm c'). reflexivity.
Qed.

Lemma stays_if {A} (b : bool) (m1 m2 : M W A) :
  stays m1 -> stays m2 -> stays (if b then m1 else m2).
Proof. destruct b; auto. Qed.

Lemma bind_print_stderr {B} line (k : unit -> M W B) s :
  bind (print_stderr line) k s = k tt (logged s [line]).
Proof. reflexivity. Qed.

Lemma bind_ret {A B} (a : A) (k : A -> M W B) s : bind (ret a) k s = k a s.
Proof. reflexivity. Qed.

Lemma try_except_raised {A} (m : M W A) h s e s1 :
  m s = (Raise e, s1) -> try_except m h s = h e s1.
Proof. intros Hm. unfold try_except. rewrite Hm. reflexivity. Qed.

Lemma try_except_returned {A} (m : M W A) h s a s1 :
  m s = (Return a, s1) -> try_except m h s = (Return a, s1).
Proof. intros Hm. unfold try_except. rewrite Hm. reflexivity. Qed.

(** A handler that catches every exception and answers always
    returns. *)
Lemma try_except_returns {A} (m : M W A) (h : exn -> M W A) s :
  stays m ->
  (forall e s', exists a s'', h e s' = (Return a, s'')) ->
  exists a s', try_except m h s = (Return a, s').
Proof.
  intros Hm Hh. unfold try_except. specialize (Hm s).
  destruct (m s) as [[a | e | c] s'] eqn:E; simpl in *.
  - eauto.
  - apply Hh.
  - exfalso. apply (Hm c). reflexivity.
Qed.

End MonadLaws.

Create HintDb quiet.
#[export] Hint Resolve quiet_ret quiet_raise quiet_sys_exit quiet_print_stderr
  quiet_lift quiet_getitem quiet_invoke quiet_bind quiet_try_except quiet_if
  : quiet.

Create HintDb stays.
#[export] Hint Resolve stays_ret stays_raise stays_print_stderr stays_lift
  stays_getitem stays_invoke stays_bind stays_try_except stays_if : stays.

(** Membership in a list that is written out. *)
Ltac in_list :=
  repeat first [ apply list_elem_of_here | apply list_elem_of_further ].

(** Unfold a computation step by step on a state. *)
Ltac run :=
  cbv beta iota delta
    [bind ret raise sys_exit try_except print_stderr print_stdout lift getitem];
  simpl.

(** ** Reading the count back *)

Section Counts.

Lemma str_app_assoc (a b c : string) : (a +:+ b) +:+ c = a +:+ (b +:+ c).
Proof.
  induction a as [| x a IH]; [reflexivity |].
  change (String x ((a +:+ b) +:+ c) = String x (a +:+ (b +:+ c))).
  rewrite IH. reflexivity.
Qed.

Lemma digits_uint d c r :
  is_digit c = false ->
  digits (NilEmpty.string_of_uint d +:+ String c r) = NilEmpty.string_of_uint d.
Proof.
  intros Hc. induction d; simpl; try (rewrite IHd; reflexivity).
  rewrite Hc. reflexivity.
Qed.

Lemma digits_str_nat n c r :
  is_digit c = false ->
  digits (str_nat n +:+ String c r) = str_nat n.
Proof.
  intros Hc. unfold str_nat, NilZero.string_of_uint.
  generalize (Nat.to_uint n). intros d.
  destruct d; first [ exact (digits_uint _ c r Hc)
                    | simpl; rewrite Hc; reflexivity ].
Qed.

Lemma count_of_str_nat n :
  Nat.of_uint <$> NilZero.uint_of_string (str_nat n) = Some n.
Proof.
  unfold str_nat.
  assert (Hd : forall d, Nat.of_uint <$> NilZero.uint_of_string
                           (NilZero.string_of_uint d) = Some (Nat.of_uint d)).
  { intros d. destruct d; try (rewrite NilZero.usu by discriminate; reflexivity).
    reflexivity. }
  rewrite Hd, Unsigned.of_to. reflexivity.
Qed.

(** A text that opens a parenthesis, prints [n] and goes on with
    something that is not a digit carries the count [n]. *)
Lemma embedded_count_spec pre n c r :
  after_char "("%char pre = None ->
  is_digit c = false ->
  embedded_count (pre +:+ "(" +:+ str_nat n +:+ String c r) = Some n.
Proof.
  intros Hpre Hc. unfold embedded_count.
  assert (Ha : after_char "("%char (pre +:+ "(" +:+ str_nat n +:+ String c r)
               = Some (str_nat n +:+ String c r)).
  { induction pre as [| a pre IH]; simpl in *; [reflexivity |].
    destruct (Ascii.eqb a "("); [discriminate | auto]. }
  rewrite Ha, digits_str_nat by assumption.
  apply count_of_str_nat.
Qed.

(** *** Reading the names back *)

Lemma str_app_nil_r (s : string) : s +:+ "" = s.
Proof.
  induction s as [| x s IH]; [reflexivity |].
  change (String x (s +:+ "") = String x s). rewrite IH. reflexivity.
Qed.

Lemma after_char_free c pre r :
  free_of c pre = true -> after_char c (pre +:+ r) = after_char c r.
Proof.
  induction pre as [| x pre IH]; [reflexivity |].
  change (String x pre +:+ r) with (String x (pre +:+ r)).
  cbn [free_of after_char].
  intros [Hx Hpre]%andb_prop.
  destruct (Ascii.eqb x c); [discriminate | auto].
Qed.

Lemma free_of_uint c d :
  is_digit c = false -> free_of c (NilEmpty.string_of_uint d) = true.
Proof.
  intros Hc. induction d; cbn [NilEmpty.string_of_uint free_of];
    try reflexivity;
    rewrite IHd, andb_true_r;
    match goal with
    | |- negb (Ascii.eqb ?x c) = true =>
        destruct (Ascii.eqb_spec x c) as [<- | _]; [discriminate | reflexivity]
    end.
Qed.

Lemma free_of_str_nat c n : is_digit c = false -> free_of c (str_nat n) = true.
Proof.
  intros Hc. unfold str_nat, NilZero.string_of_uint.
  generalize (Nat.to_uint n). intros d.
  destruct d; first [ exact (free_of_uint c _ Hc) | idtac ].
  cbn [free_of].
  destruct (Ascii.eqb_spec "0" c) as [<- | _]; [discriminate | reflexivity].
Qed.

Lemma prefix_app sep rest : String.prefix sep (sep +:+ rest) = true.
Proof.
  induction sep as [| x sep IH]; [destruct rest; reflexivity |].
  change (String x sep +:+ rest) with (String x (sep +:+ rest)).
  cbn [String.prefix].
  destruct (ascii_dec x x); [exact IH | contradiction].
Qed.

Lemma split_go_skip sep x cur rest :
  split_go sep (String.length x) cur (x +:+ rest) = split_go sep 0 cur rest.
Proof.
  induction x as [| a x IH]; [reflexivity |]. simpl. exact IH.
Qed.

Lemma split_go_sep c0 sep' cur rest :
  split_go (String c0 sep') 0 cur (String c0 sep' +:+ rest)
  = cur :: split_go (String c0 sep') 0 "" rest.
Proof.
  change (String c0 sep' +:+ rest) with (String c0 (sep' +:+ rest)).
  cbn [split_go].
  change (String c0 (sep' +:+ rest)) with (String c0 sep' +:+ rest).
  rewrite prefix_app. f_equal.
  cbn [String.length]. rewrite Nat.sub_1_r. cbn [Nat.pred].
  apply split_go_skip.
Qed.

Lemma split_go_name c0 sep' n cur rest :
  free_of c0 n = true ->
  split_go (String c0 sep') 0 cur (n +:+ rest)
  = split_go (String c0 sep') 0 (cur +:+ n) rest.
Proof.
  revert cur. induction n as [| x n IH]; intros cur Hn.
  - rewrite str_app_nil_r. reflexivity.
  - simpl in Hn. apply andb_prop in Hn as [Hx Hn].
    change (String x n +:+ rest) with (String x (n +:+ rest)).
    cbn [split_go String.prefix].
    destruct (ascii_dec c0 x) as [-> | Hne].
    + rewrite Ascii.eqb_refl in Hx. discriminate.
    + rewrite (IH _ Hn), str_app_assoc. reflexivity.
Qed.

Lemma split_join c0 sep' n ns :
  Forall (fun x => free_of c0 x = true) (n :: ns) ->
  split (String c0 sep') (join (String c0 sep') (n :: ns)) = n :: ns.
Proof.
  unfold split, join. revert n.
  induction ns as [| n2 ns IH]; intros n Hall.
  - simpl. inversion Hall; subst.
    rewrite <- (str_app_nil_r n) at 1.
    rewrite split_go_name by assumption. reflexivity.
  - inversion Hall; subst.
    change (String.concat (String c0 sep') (n :: n2 :: ns))
      with (n +:+ String c0 sep' +:+ String.concat (String c0 sep') (n2 :: ns)).
    rewrite split_go_name by assumption.
    rewrite split_go_sep. simpl (_ +:+ _) at 1.
    rewrite IH by assumption. reflexivity.
Qed.

Lemma plain_name_spec n :
  plain_name n = true ->
  n <> ""
  /\ free_of ","%char n = true
  /\ free_of (ascii_of_nat 10) n = true.
Proof.
  unfold plain_name. intros [[H1 H2]%andb_prop H3]%andb_prop.
  repeat split; try assumption.
  intros ->. discriminate.
Qed.

Lemma join_cons_nonempty sep n ns :
  n <> "" -> String.eqb (join sep (n :: ns)) "" = false.
Proof.
  intros Hn. destruct n as [| x n]; [contradiction |].
  unfold join. destruct ns; reflexivity.
Qed.

(** A text made of a header without a colon, [": "] and the names joined
    by [", "] gives the names back, in order. *)
Lemma listed_names_spec header names :
  free_of ":"%char header = true ->
  Forall (fun n => plain_name n = true) names ->
  listed_names (header +:+ ": " +:+ join ", " names) = names.
Proof.
  intros Hh Hall. unfold listed_names.
  rewrite after_char_free by assumption.
  change (": " +:+ join ", " names)
    with (String ":" (String " " (join ", " names))).
  cbn [after_char]. rewrite Ascii.eqb_refl. cbn [drop_chars].
  destruct names as [| n ns]; [reflexivity |].
  rewrite join_cons_nonempty
    by (inversion Hall; subst; apply plain_name_spec; assumption).
  apply split_join.
  eapply Forall_impl; [exact Hall |].
  intros x Hx. apply (plain_name_spec x Hx).
Qed.

(** A text made of a header line and one ["  - name"] line for each name
    gives the names back, in order. *)
Lemma listed_lines_spec header names :
  free_of (ascii_of_nat 10) header = true ->
  Forall (fun n => plain_name n = true) names ->
  listed_lines (header +:+ nl +:+ join nl (map (fun b => "  - " +:+ b) names))
  = names.
Proof.
  intros Hh Hall. unfold listed_lines.
  rewrite after_char_free by assumption.
  change (nl +:+ join nl (map (fun b => "  - " +:+ b) names))
    with (String (ascii_of_nat 10) (join nl (map (fun b => "  - " +:+ b) names))).
  cbn [after_char]. rewrite Ascii.eqb_refl.
  destruct names as [| n ns]; [reflexivity |].
  cbn [map]. rewrite join_cons_nonempty by discriminate.
  unfold nl. rewrite split_join.
  - change (drop_chars 4 ("  - " +:+ n) :: map (drop_chars 4) (map (fun b => "  - " +:+ b) ns)
            = n :: ns).
    cbn [drop_chars append]. f_equal.
    rewrite map_map. clear. induction ns as [| x ns IH]; [reflexivity |].
    cbn [map]. rewrite IH. reflexivity.
  - change (Forall (fun x => free_of (ascii_of_nat 10) x = true)
              (map (fun b => "  - " +:+ b) (n :: ns))).
    apply Forall_map. eapply Forall_impl; [exact Hall |].
    intros x Hx. apply plain_name_spec in Hx as (_ & _ & Hx).
    unfold compose.
    change (free_of (ascii_of_nat 10)
              (String " " (String " " (String "-" (String " " x)))) = true).
    cbn [free_of]. rewrite Hx. reflexivity.
Qed.

Lemma free_of_app c a b : free_of c (a +:+ b) = free_of c a && free_of c b.
Proof.
  induction a as [| x a IH]; [reflexivity |].
  change (String x a +:+ b) with (String x (a +:+ b)).
  cbn [free_of]. rewrite IH, andb_assoc. reflexivity.
Qed.

(** The three texts the servers build for a list of bucket names. *)
Lemma counted_text_names names :
  Forall (fun n => plain_name n = true) names ->
  listed_names ("S3 Buckets (" +:+ str_nat (length names) +:+ "): "
                +:+ join ", " names) = names.
Proof.
  intros Hall.
  replace ("S3 Buckets (" +:+ str_nat (length names) +:+ "): " +:+ join ", " names)
    with (("S3 Buckets (" +:+ str_nat (length names) +:+ ")")
          +:+ ": " +:+ join ", " names)
    by (rewrite !str_app_assoc; reflexivity).
  apply listed_names_spec; [| assumption].
  rewrite !free_of_app, free_of_str_nat by reflexivity. reflexivity.
Qed.

Lemma plain_text_names names :
  Forall (fun n => plain_name n = true) names ->
  listed_names ("S3 Buckets: " +:+ join ", " names) = names.
Proof.
  intros Hall.
  change ("S3 Buckets: " +:+ join ", " names)
    with ("S3 Buckets" +:+ ": " +:+ join ", " names).
  apply listed_names_spec; [reflexivity | assumption].
Qed.

Lemma format_buckets_names names :
  Forall (fun n => plain_name n = true) names ->
  listed_lines (Local.format_buckets names) = names.
Proof.
  intros Hall. unfold Local.format_buckets.
  replace (("S3 Buckets (" +:+ str_nat (length names) +:+ " total):" +:+ nl)
           +:+ join nl (map (fun b => "  - " +:+ b) names))
    with (("S3 Buckets (" +:+ str_nat (length names) +:+ " total):")
          +:+ nl +:+ join nl (map (fun b => "  - " +:+ b) names))
    by (rewrite !str_app_assoc; reflexivity).
  apply listed_lines_spec; [| assumption].
  rewrite !free_of_app, free_of_str_nat by reflexivity. reflexivity.
Qed.

End Counts.

(** ** The registry *)

Section RegistryLaws.

Context {E : Type} (entry_name : E -> string).

Lemma find_name_none n (r : list E) :
  n ∉ map entry_name r ->
  find (fun e => String.eqb (entry_name e) n) r = None.
Proof.
  induction r as [| x r IH]; [reflexivity |].
  cbn [map find]. rewrite not_elem_of_cons. intros [Hx Hr].
  destruct (String.eqb_spec (entry_name x) n) as [Heq | _]; [| auto].
  exfalso. apply Hx. symmetry. exact Heq.
Qed.

Lemma find_name_some n (r : list E) :
  n ∈ map entry_name r ->
  exists e, find (fun e => String.eqb (entry_name e) n) r = Some e.
Proof.
  induction r as [| x r IH]; cbn [map find].
  - intros H. apply elem_of_nil in H. contradiction.
  - rewrite elem_of_cons. intros [-> | Hr].
    + rewrite String.eqb_refl. eauto.
    + destruct (String.eqb (entry_name x) n); eauto.
Qed.

Lemma register_fresh e (r : list E) :
  entry_name e ∉ map entry_name r ->
  Registry.register entry_name e r = inr (r ++ [e]).
Proof.
  intros H. unfold Registry.register, Registry.lookup.
  rewrite (find_name_none _ _ H). reflexivity.
Qed.

Lemma register_taken e (r : list E) :
  entry_name e ∈ map entry_name r ->
  Registry.register entry_name e r
  = inl (Registry.DuplicateNameError (entry_name e)).
Proof.
  intros H. unfold Registry.register, Registry.lookup.
  destruct (find_name_some _ _ H) as (x & ->). reflexivity.
Qed.

Lemma register_all_fresh (es r : list E) :
  NoDup (map entry_name (r ++ es)) ->
  Registry.register_all entry_name es r = inr (r ++ es).
Proof.
  revert r. induction es as [| e es IH]; intros r Hnd.
  - rewrite app_nil_r. reflexivity.
  - cbn [Registry.register_all].
    rewrite register_fresh.
    + rewrite IH; rewrite <- app_assoc; [reflexivity | exact Hnd].
    + rewrite map_app in Hnd. apply NoDup_app in Hnd as (_ & Hdis & _).
      intros Hin. apply (Hdis _ Hin). cbn [map]. apply list_elem_of_here.
Qed.

Lemma ask_list_stable (r : list E) qs :
  Forall2 (fun q a => q = Registry.QList -> a = Registry.AList r)
          qs (map (Registry.ask entry_name r) qs).
Proof.
  induction qs as [| q qs IH]; cbn [map]; constructor; [| exact IH].
  intros ->. reflexivity.
Qed.

End RegistryLaws.

(** ** [subprocess/mcp_server.py] *)

Module SubprocessFacts.
Section Facts.

Context {W : Type} {backend : Backend W} {runtime : Runtime} {sdk : Sdk}.

Import Subprocess.

Lemma log_logged message (s : state W) :
  log message s = (Return tt, logged s ["[SERVER] " +:+ message]).
Proof. reflexivity. Qed.

Lemma tools_names :
  map Mcp.name tools = ["list_s3_buckets"; "get_s3_object"; "query_dynamodb"].
Proof. reflexivity. Qed.

Lemma unknown_name n :
  n ∉ map Mcp.name tools ->
  String.eqb n "list_s3_buckets" = false
  /\ String.eqb n "get_s3_object" = false
  /\ String.eqb n "query_dynamodb" = false.
Proof.
  rewrite tools_names. intros Hn.
  repeat split; apply String.eqb_neq; intros ->; apply Hn; in_list.
Qed.

Lemma handle_raise n arguments (s s' : state W) e :
  call_tool n arguments s = (Raise e, s') ->
  handle (CallTool n arguments) s = (Return (Failed e), s').
Proof. intros Hc. unfold handle, try_except, bind. rewrite Hc. reflexivity. Qed.

Lemma handle_return n arguments (s s' : state W) l :
  call_tool n arguments s = (Return l, s') ->
  handle (CallTool n arguments) s = (Return (Content l), s').
Proof. intros Hc. unfold handle, try_except, bind. rewrite Hc. reflexivity. Qed.

(** C3: [call_tool] is the dispatcher and the branches of its [if] chain
    are the tools.  A call whose name matches no listed tool enters no
    branch: it is logged and ends in [ValueError("Unknown tool: ...")]
    raised out of [call_tool], so the request loop gets a failure, not
    content; no backend operation is invoked and the backend is
    unchanged. *)
Theorem call_tool_unknown n (arguments : gmap string value) (s : state W) :
  n ∉ map Mcp.name tools ->
  call_tool n arguments s
    = (Raise (ValueError ("Unknown tool: " +:+ n)),
       logged s ["[SERVER] call_tool: " +:+ n +:+ " with " +:+ str_dict arguments;
                 "[SERVER] ERROR in call_tool: Unknown tool: " +:+ n])
  /\ fst (handle (CallTool n arguments) s)
      = Return (Failed (ValueError ("Unknown tool: " +:+ n)))
  /\ calls (snd (handle (CallTool n arguments) s)) = calls s
  /\ world (snd (handle (CallTool n arguments) s)) = world s.
Proof.
  intros Hn. destruct (unknown_name n Hn) as (E1 & E2 & E3).
  assert (Hc : call_tool n arguments s
    = (Raise (ValueError ("Unknown tool: " +:+ n)),
       logged s ["[SERVER] call_tool: " +:+ n +:+ " with " +:+ str_dict arguments;
                 "[SERVER] ERROR in call_tool: Unknown tool: " +:+ n])).
  { unfold call_tool. rewrite E1, E2, E3. unfold log. run.
    unfold logged. rewrite <- app_assoc. reflexivity. }
  split; [exact Hc |].
  rewrite (handle_raise _ _ _ _ _ Hc). simpl. auto.
Qed.

(** C2: when the arguments of a call to a listed tool omit a parameter
    that the tool's [inputSchema] marks as required, [call_tool] fails:
    the branch of the tool first reads its required parameters from the
    arguments, outside its [try] block, and the first one that is missing
    raises [KeyError], which is logged and raised out of [call_tool] (the
    request loop gets a failure, not content).  The [try] block that
    talks to the backend is not entered: the trace of backend operations
    and the backend are unchanged. *)
Theorem call_tool_missing_required (t : Tool) (p : string)
    (arguments : gmap string value) (s : state W) :
  t ∈ tools ->
  p ∈ required_params t ->
  arguments !! p = None ->
  exists q,
    q ∈ required_params t
    /\ arguments !! q = None
    /\ call_tool (Mcp.name t) arguments s
        = (Raise (KeyError q),
           logged s ["[SERVER] call_tool: " +:+ Mcp.name t +:+ " with "
                       +:+ str_dict arguments;
                     "[SERVER] ERROR in call_tool: " +:+ str_exn (KeyError q)])
    /\ fst (handle (CallTool (Mcp.name t) arguments) s) = Return (Failed (KeyError q))
    /\ calls (snd (handle (CallTool (Mcp.name t) arguments) s)) = calls s
    /\ world (snd (handle (CallTool (Mcp.name t) arguments) s)) = world s.
Proof.
  intros Ht Hp Hnone.
  assert (Hq : exists q, q ∈ required_params t /\ arguments !! q = None
    /\ call_tool (Mcp.name t) arguments s
        = (Raise (KeyError q),
           logged s ["[SERVER] call_tool: " +:+ Mcp.name t +:+ " with "
                       +:+ str_dict arguments;
                     "[SERVER] ERROR in call_tool: " +:+ str_exn (KeyError q)])).
  { unfold tools in Ht.
    repeat (apply elem_of_cons in Ht as [-> | Ht]);
      [ | | | apply elem_of_nil in Ht; contradiction ];
      unfold required_params in *; simpl in Hp |- *.
    - apply elem_of_nil in Hp. contradiction.
    - destruct (arguments !! "bucket") as [b |] eqn:Eb.
      + destruct (arguments !! "key") as [k |] eqn:Ek.
        * exfalso. rewrite !elem_of_cons, elem_of_nil in Hp.
          destruct Hp as [-> | [-> | []]]; congruence.
        * exists "key". split; [in_list |]. split; [assumption |].
          unfold call_tool, get_s3_object_try, query_dynamodb_try, log, getitem. simpl. rewrite Eb, Ek. run.
          unfold logged. rewrite <- app_assoc. reflexivity.
      + exists "bucket". split; [in_list |]. split; [assumption |].
        unfold call_tool, get_s3_object_try, query_dynamodb_try, log, getitem. simpl. rewrite Eb. run.
        unfold logged. rewrite <- app_assoc. reflexivity.
    - destruct (arguments !! "table_name") as [tn |] eqn:Et.
      + destruct (arguments !! "key") as [k |] eqn:Ek.
        * destruct (arguments !! "value") as [v |] eqn:Ev.
          -- exfalso. rewrite !elem_of_cons, elem_of_nil in Hp.
             destruct Hp as [-> | [-> | [-> | []]]]; congruence.
          -- exists "value". split; [in_list |]. split; [assumption |].
             unfold call_tool, get_s3_object_try, query_dynamodb_try, log, getitem. simpl. rewrite Et, Ek, Ev. run.
             unfold logged. rewrite <- app_assoc. reflexivity.
        * exists "key". split; [in_list |]. split; [assumption |].
          unfold call_tool, get_s3_object_try, query_dynamodb_try, log, getitem. simpl. rewrite Et, Ek. run.
          unfold logged. rewrite <- app_assoc. reflexivity.
      + exists "table_name". split; [in_list |]. split; [assumption |].
        unfold call_tool, get_s3_object_try, query_dynamodb_try, log, getitem. simpl. rewrite Et. run.
        unfold logged. rewrite <- app_assoc. reflexivity. }
  destruct Hq as (q & Hq1 & Hq2 & Hc). exists q.
  repeat (split; [assumption |]).
  rewrite (handle_raise _ _ _ _ _ Hc). simpl. auto.
Qed.

(** What [call_tool] does when the backend refuses the request of a
    tool. *)
Lemma call_tool_get_s3_object_error arguments bucket key e w' (s : state W) :
  arguments !! "bucket" = Some bucket ->
  arguments !! "key" = Some key ->
  get_object bucket key (world s) = (Err e, w') ->
  call_tool "get_s3_object" arguments s
    = (Return [text_content ("Error: " +:+ str_exn e)],
       called (logged s ["[SERVER] call_tool: get_s3_object with "
                           +:+ str_dict arguments])
              (CGetObject bucket key) w').
Proof.
  intros Eb Ek Eg. unfold call_tool, get_s3_object_try, query_dynamodb_try, log, getitem. simpl.
  rewrite Eb, Ek. run. unfold invoke. simpl. rewrite Eg. reflexivity.
Qed.

Lemma call_tool_query_dynamodb_error arguments table_name key value e w'
    (s : state W) :
  arguments !! "table_name" = Some table_name ->
  arguments !! "key" = Some key ->
  arguments !! "value" = Some value ->
  table_name <> VNone ->
  hashable key = true ->
  get_item table_name key value (world s) = (Err e, w') ->
  call_tool "query_dynamodb" arguments s
    = (Return [text_content ("Error: " +:+ str_exn e)],
       called (logged s ["[SERVER] call_tool: query_dynamodb with "
                           +:+ str_dict arguments])
              (CGetItem table_name key value) w').
Proof.
  intros Et Ek Ev Hn Hh Eg. unfold call_tool, get_s3_object_try, query_dynamodb_try, log, getitem. simpl.
  rewrite Et, Ek, Ev. run.
  assert (HT : Table table_name = Ok table_name) by (destruct table_name; [congruence | reflexivity ..]).
  rewrite HT. unfold key_dict. rewrite Hh. simpl.
  unfold invoke. simpl. rewrite Eg. reflexivity.
Qed.

Lemma call_tool_list_s3_buckets_error arguments e w' (s : state W) :
  list_buckets (world s) = (Err e, w') ->
  call_tool "list_s3_buckets" arguments s
    = (Raise e,
       logged (called (logged s ["[SERVER] call_tool: list_s3_buckets with "
                                   +:+ str_dict arguments])
                      CListBuckets w')
              ["[SERVER] ERROR in call_tool: " +:+ str_exn e]).
Proof.
  intros El. unfold call_tool, log. run. unfold invoke. simpl.
  rewrite El. reflexivity.
Qed.

(** [call_tool] and [list_tools] never leave the process, so the request
    loop answers every request. *)
Lemma call_tool_stays n arguments : stays (W := W) (call_tool n arguments).
Proof.
  unfold call_tool, get_s3_object_try, query_dynamodb_try, log.
  eauto 20 with stays.
Qed.

Lemma list_tools_logged (s : state W) :
  list_tools s = (Return tools, logged s ["[SERVER] list_tools called"]).
Proof. reflexivity. Qed.

Lemma handle_returns r (s : state W) :
  exists x s', handle r s = (Return x, s')
               /\ (r = ListTools -> x = Tools tools).
Proof.
  destruct r as [| n arguments].
  - eexists _, _. split; [reflexivity | auto].
  - destruct (try_except_returns
                (l <- call_tool n arguments ;; ret (Content l))
                (fun e => ret (Failed e)) s) as (x & s' & Hx).
    + auto using call_tool_stays with stays.
    + intros e s'. eexists _, _. reflexivity.
    + exists x, s'. split; [exact Hx | discriminate].
Qed.

Lemma app_run_returns reqs (s : state W) :
  exists resps s',
    app_run reqs s = (Return resps, s')
    /\ Forall2 (fun rq rs => rq = ListTools -> rs = Tools tools) reqs resps.
Proof.
  revert s. induction reqs as [| r reqs IH]; intros s.
  - eexists _, _. split; [reflexivity | constructor].
  - destruct (handle_returns r s) as (x & s1 & Hx & Hl).
    destruct (IH s1) as (xs & s2 & Hxs & Hall).
    exists (x :: xs), s2. split.
    + simpl. unfold bind. rewrite Hx, Hxs. reflexivity.
    + constructor; assumption.
Qed.

(** C4: [list_tools] of [subprocess/mcp_server.py] answers with the three
    descriptors of the script, each as it is written and in the order
    they are written, whatever the state of the process: so also after
    any [call_tool] or [list_tools], whether it returned or raised, and
    against any backend.  For the FastMCP servers, with the registry
    modelled from the spec: registering any tools with distinct names
    gives a registry whose listing is those tools in registration order,
    and whatever is asked of the registry, every listing is that same
    sequence; a name that is taken is rejected and a fresh one is added
    at the end.  The six decorated functions of the strands scripts, and
    the three of [local/mcp_server.py], are registered without a clash
    and listed in the order of their decorators. *)
Theorem list_tools_stable :
  (forall s : state W,
      list_tools s
      = (Return
           [ {| Mcp.name := "list_s3_buckets";
                description := "List all S3 buckets";
                inputSchema := {| schema_type := "object";
                                  properties := [];
                                  required := None |} |};
             {| Mcp.name := "get_s3_object";
                description := "Get an object from S3";
                inputSchema := {| schema_type := "object";
                                  properties := [("bucket", "string");
                                                 ("key", "string")];
                                  required := Some ["bucket"; "key"] |} |};
             {| Mcp.name := "query_dynamodb";
                description := "Query a DynamoDB table";
                inputSchema := {| schema_type := "object";
                                  properties := [("table_name", "string");
                                                 ("key", "string");
                                                 ("value", "string")];
                                  required := Some ["table_name"; "key"; "value"] |} |} ],
         logged s ["[SERVER] list_tools called"]))
  /\ (forall s s' : state W, fst (list_tools s') = fst (list_tools s))
  /\ (forall n arguments (s : state W),
        fst (list_tools (snd (call_tool n arguments s))) = fst (list_tools s)
        /\ fst (list_tools (snd (list_tools s))) = fst (list_tools s))
  /\ (forall (E : Type) (entry_name : E -> string) (es : list E),
        NoDup (map entry_name es) ->
        exists r,
          Registry.register_all entry_name es [] = inr r
          /\ Registry.list_all r = es
          /\ forall qs,
              Forall2 (fun q a => q = Registry.QList -> a = Registry.AList es)
                      qs (map (Registry.ask entry_name r) qs))
  /\ (forall (E : Type) (entry_name : E -> string) (e : E) (r : list E),
        (entry_name e ∈ map entry_name r ->
         Registry.register entry_name e r
         = inl (Registry.DuplicateNameError (entry_name e)))
        /\ (entry_name e ∉ map entry_name r ->
            Registry.register entry_name e r = inr (r ++ [e])))
  /\ (exists r,
        Registry.register_all fn_name strands_decorated [] = inr r
        /\ Registry.list_all r = strands_decorated
        /\ map fn_name (Registry.list_all r)
           = ["list_s3_buckets"; "get_s3_object"; "put_s3_object";
              "list_dynamodb_tables"; "query_dynamodb"; "put_dynamodb_item"])
  /\ (exists r,
        Registry.register_all fn_name local_decorated [] = inr r
        /\ Registry.list_all r = local_decorated
        /\ map fn_name (Registry.list_all r)
           = ["list_s3_buckets"; "get_s3_object"; "query_dynamodb"]).
Proof.
  split; [exact list_tools_logged |].
  split; [intros s s'; rewrite !list_tools_logged; reflexivity |].
  split; [intros n arguments s; rewrite !list_tools_logged; split; reflexivity |].
  split.
  { intros E entry_name es Hnd. exists es.
    split; [exact (register_all_fresh entry_name es [] Hnd) |].
    split; [reflexivity |].
    apply ask_list_stable. }
  split.
  { intros E entry_name e r. split.
    - apply register_taken.
    - apply register_fresh. }
  split; eexists; (split; [reflexivity |]); split; reflexivity.
Qed.

(** Nothing in the script writes to standard output. *)
Lemma log_quiet message : quiet (W := W) (log message).
Proof. unfold log. auto with quiet. Qed.

Lemma call_tool_quiet n arguments : quiet (W := W) (call_tool n arguments).
Proof.
  unfold call_tool, get_s3_object_try, query_dynamodb_try, log.
  eauto 20 with quiet.
Qed.

Lemma list_tools_quiet : quiet (W := W) list_tools.
Proof. unfold list_tools, log. auto with quiet. Qed.

Lemma init_clients_quiet env : quiet (W := W) (init_clients env).
Proof. unfold init_clients, log. eauto 20 with quiet. Qed.

Lemma print_exc_quiet e : quiet (W := W) (print_exc e).
Proof. unfold print_exc. auto with quiet. Qed.

Lemma handle_quiet r : quiet (W := W) (handle r).
Proof.
  destruct r; unfold handle;
    auto 10 using list_tools_quiet, call_tool_quiet with quiet.
Qed.

Lemma app_run_quiet reqs : quiet (W := W) (app_run reqs).
Proof.
  induction reqs as [| r reqs IH]; simpl;
    auto 10 using handle_quiet with quiet.
Qed.

Lemma main_quiet reqs : quiet (W := W) (main reqs).
Proof.
  unfold main, log.
  auto 20 using app_run_quiet, print_exc_quiet with quiet.
Qed.

Lemma script_quiet env reqs : quiet (W := W) (script env reqs).
Proof.
  unfold script, log.
  auto 20 using init_clients_quiet, main_quiet, print_exc_quiet with quiet.
Qed.

(** When one of the two clients cannot be built, the script logs the
    failure and exits with status 1; the request loop is never
    entered. *)
Lemma script_init_failure env reqs (s : state W) :
  (exists e, client env "s3" "us-east-1" = Err e)
  \/ (exists e, client env "dynamodb" "us-east-1" = Err e) ->
  exists e,
    script env reqs s
    = (Exit 1,
       logged s ["[SERVER] Starting AWS MCP Server...";
                 "[SERVER] Initializing AWS clients...";
                 "[SERVER] ERROR initializing AWS clients: " +:+ str_exn e]).
Proof.
  intros Hfail.
  assert (Hinit : exists e,
    (client env "s3" "us-east-1" = Err e)
    \/ (exists c, client env "s3" "us-east-1" = Ok c
                  /\ client env "dynamodb" "us-east-1" = Err e)).
  { destruct (client env "s3" "us-east-1") as [c | e1] eqn:E1.
    - destruct Hfail as [[e He] | [e He]]; [discriminate |].
      exists e. right. exists c. auto.
    - exists e1. left. reflexivity. }
  destruct Hinit as (e & [E1 | (c & E1 & E2)]); exists e;
    unfold script, init_clients, log; run; rewrite E1; simpl;
    try rewrite E2; simpl;
    unfold logged; simpl; rewrite <- !app_assoc; reflexivity.
Qed.

(** Whatever the environment, the clients that [init_clients] builds
    are clients for [us-east-1]. *)
Lemma init_clients_region env (s s' : state W) c1 c2 :
  init_clients env s = (Return (c1, c2), s') ->
  client_region c1 = "us-east-1" /\ client_region c2 = "us-east-1".
Proof.
  unfold init_clients, log, client. run.
  destruct (client_error env "s3" "us-east-1"); simpl; [discriminate |].
  destruct (client_error env "dynamodb" "us-east-1"); simpl; [discriminate |].
  intros [= <- <- _]. split; reflexivity.
Qed.

End Facts.
End SubprocessFacts.

(** ** [subprocess-strands/mcp_server_strands.py] *)

Module SubprocessStrandsFacts.
Section Facts.

Context {W : Type} {backend : Backend W} {runtime : Runtime} {sdk : Sdk}.

Import SubprocessStrands.

Lemma run_tool_quiet c : quiet (W := W) (run_tool c).
Proof.
  destruct c; simpl;
    unfold list_s3_buckets, get_s3_object, get_s3_object_try, put_s3_object,
      list_dynamodb_tables, query_dynamodb, put_dynamodb_item, log;
    eauto 20 with quiet.
Qed.

Lemma mcp_run_quiet reqs : quiet (W := W) (mcp_run reqs).
Proof.
  induction reqs as [| c reqs IH]; simpl;
    auto 10 using run_tool_quiet with quiet.
Qed.

Lemma strands_init_clients_quiet env : quiet (W := W) (init_clients env).
Proof. unfold init_clients, log. eauto 20 with quiet. Qed.

Lemma strands_script_quiet env reqs : quiet (W := W) (script env reqs).
Proof.
  unfold script, main, print_exc, log.
  auto 20 using strands_init_clients_quiet, mcp_run_quiet with quiet.
Qed.

Lemma strands_script_init_failure env reqs (s : state W) :
  (exists e, client env "s3" "us-east-1" = Err e)
  \/ (exists e, client env "dynamodb" "us-east-1" = Err e) ->
  exists e,
    script env reqs s
    = (Exit 1,
       logged s ["[SERVER] Starting AWS MCP Server with FastMCP...";
                 "[SERVER] Initializing AWS clients...";
                 "[SERVER] ERROR initializing AWS clients: " +:+ str_exn e]).
Proof.
  intros Hfail.
  assert (Hinit : exists e,
    (client env "s3" "us-east-1" = Err e)
    \/ (exists c, client env "s3" "us-east-1" = Ok c
                  /\ client env "dynamodb" "us-east-1" = Err e)).
  { destruct (client env "s3" "us-east-1") as [c | e1] eqn:E1.
    - destruct Hfail as [[e He] | [e He]]; [discriminate |].
      exists e. right. exists c. auto.
    - exists e1. left. reflexivity. }
  destruct Hinit as (e & [E1 | (c & E1 & E2)]); exists e;
    unfold script, init_clients, log; run; rewrite E1; simpl;
    try rewrite E2; simpl;
    unfold logged; simpl; rewrite <- !app_assoc; reflexivity.
Qed.

(** [get_s3_object] turns a refusal of the backend into its answer. *)
Lemma strands_get_s3_object_error bucket key e w' (s : state W) :
  get_object (VStr bucket) (VStr key) (world s) = (Err e, w') ->
  fst (get_s3_object bucket key s)
    = Return ("Error getting S3 object: " +:+ str_exn e).
Proof.
  intros Eg. unfold get_s3_object, get_s3_object_try, log. run. unfold invoke. simpl.
  rewrite Eg. reflexivity.
Qed.

(** The answer of [query_dynamodb], by what the backend said. *)
Lemma strands_query_dynamodb_answer table_name key value (s : state W) :
  exists text s',
    query_dynamodb table_name key value s = (Return text, s')
    /\ match fst (get_item (VStr table_name) (VStr key) (VStr value) (world s)) with
       | Ok response =>
           match Item response with
           | Some item =>
               if bool_decide (item = ∅)
               then text = "No item found with " +:+ key +:+ "=" +:+ value
               else text = "Found item: " +:+ str_dict item
           | None => text = "No item found with " +:+ key +:+ "=" +:+ value
           end
       | Err e => text = "Error querying DynamoDB: " +:+ str_exn e
       end.
Proof.
  unfold query_dynamodb, log. run. unfold invoke. simpl.
  destruct (get_item (VStr table_name) (VStr key) (VStr value) (world s))
    as [[response | e] w']; simpl.
  - destruct (Item response) as [item |]; simpl.
    + unfold truthy_dict.
      destruct (bool_decide (item = ∅)); simpl;
        eexists _, _; split; reflexivity.
    + eexists _, _. split; reflexivity.
  - eexists _, _. split; reflexivity.
Qed.

(** [put_dynamodb_item] on a text that [json.loads] refuses. *)
Lemma strands_put_dynamodb_item_invalid table_name item_json e (s : state W) :
  json_loads item_json = Err e ->
  put_dynamodb_item table_name item_json s
    = (Return ("Error putting item to DynamoDB: " +:+ str_exn e),
       logged s ["[SERVER] put_dynamodb_item called: table=" +:+ table_name;
                 "[SERVER] ERROR: Error putting item to DynamoDB: " +:+ str_exn e]).
Proof.
  intros Ej. unfold put_dynamodb_item, log. run. rewrite Ej. simpl.
  unfold logged. simpl. rewrite <- app_assoc. reflexivity.
Qed.

(** The text of [list_s3_buckets] when the backend answers. *)
Lemma strands_list_s3_buckets_text response w' (s : state W) :
  list_buckets (world s) = (Ok response, w') ->
  fst (list_s3_buckets s)
    = Return ("S3 Buckets (" +:+ str_nat (length (map Name (Buckets response)))
              +:+ "): " +:+ join ", " (map Name (Buckets response))).
Proof.
  intros El. unfold list_s3_buckets, log. run. unfold invoke. simpl.
  rewrite El. reflexivity.
Qed.

End Facts.
End SubprocessStrandsFacts.

(** ** [local/mcp_server.py] and [local-strands/mcp_server_strands.py] *)

Module LocalFacts.
Section Facts.

Context {W : Type} {backend : Backend W} {runtime : Runtime} {sdk : Sdk}.

(** The HTTP servers take the region of their clients from
    [AWS_DEFAULT_REGION], and ["us-east-1"] when it is not set. *)
Lemma local_clients_region env (s s' : state W) c :
  Local.init_clients env s = (Return c, s') ->
  region_name (Local.session c) = default "us-east-1" (env !! "AWS_DEFAULT_REGION")
  /\ client_region (Local.s3_client c) = default "us-east-1" (env !! "AWS_DEFAULT_REGION")
  /\ client_region (Local.dynamodb c) = default "us-east-1" (env !! "AWS_DEFAULT_REGION").
Proof.
  unfold Local.init_clients, session_client, new_session, client. run.
  generalize (default "us-east-1" (env !! "AWS_DEFAULT_REGION")). intros r.
  destruct (truthy_getenv (env !! "AWS_PROFILE")); simpl;
    destruct (session_error env _ r); simpl; try discriminate;
    destruct (client_error env "s3" r); simpl; try discriminate;
    destruct (client_error env "dynamodb" r); simpl; try discriminate;
    destruct (client_error env "sts" r); simpl; try discriminate;
    unfold invoke; simpl;
    destruct (get_caller_identity (world s)) as [[i | e] w]; simpl;
    try discriminate;
    intros [= <- _]; simpl; auto.
Qed.

Lemma local_list_s3_buckets_text response w' (s : state W) :
  list_buckets (world s) = (Ok response, w') ->
  fst (Local.list_s3_buckets s)
    = Return (Local.format_buckets (map Name (Buckets response))).
Proof.
  intros El. unfold Local.list_s3_buckets. run. unfold invoke. simpl.
  rewrite El. reflexivity.
Qed.

Lemma local_strands_list_s3_buckets_text response w' (s : state W) :
  list_buckets (world s) = (Ok response, w') ->
  fst (LocalStrands.list_s3_buckets s)
    = Return (Local.format_buckets (map Name (Buckets response))).
Proof.
  intros El. unfold LocalStrands.list_s3_buckets. run. unfold invoke. simpl.
  rewrite El. reflexivity.
Qed.

Lemma format_buckets_count buckets :
  embedded_count (Local.format_buckets buckets) = Some (length buckets).
Proof.
  unfold Local.format_buckets.
  rewrite !str_app_assoc.
  change ("S3 Buckets (" +:+ str_nat (length buckets) +:+ " total):" +:+ nl
          +:+ join nl (map (fun b => "  - " +:+ b) buckets))
    with ("S3 Buckets " +:+ "(" +:+ str_nat (length buckets)
          +:+ String " " ("total):" +:+ nl
                          +:+ join nl (map (fun b => "  - " +:+ b) buckets))).
  apply embedded_count_spec; reflexivity.
Qed.

Lemma local_strands_query_dynamodb_answer table_name key value (s : state W) :
  exists text s',
    LocalStrands.query_dynamodb table_name key value s = (Return text, s')
    /\ match fst (get_item (VStr table_name) (VStr key) (VStr value) (world s)) with
       | Ok response =>
           match Item response with
           | Some item =>
               if bool_decide (item = ∅)
               then text = "No item found with " +:+ key +:+ "=" +:+ value
               else text = "Found item: " +:+ str_dict item
           | None => text = "No item found with " +:+ key +:+ "=" +:+ value
           end
       | Err e => text = "Error querying DynamoDB: " +:+ str_exn e
       end.
Proof.
  unfold LocalStrands.query_dynamodb. run. unfold invoke. simpl.
  destruct (get_item (VStr table_name) (VStr key) (VStr value) (world s))
    as [[response | e] w']; simpl.
  - destruct (Item response) as [item |]; simpl.
    + unfold truthy_dict.
      destruct (bool_decide (item = ∅)); simpl;
        eexists _, _; split; reflexivity.
    + eexists _, _. split; reflexivity.
  - eexists _, _. split; reflexivity.
Qed.

Lemma local_strands_put_dynamodb_item_invalid table_name item_json e
    (s : state W) :
  json_loads item_json = Err e ->
  LocalStrands.put_dynamodb_item table_name item_json s
    = (Return ("Error putting item to DynamoDB: " +:+ str_exn e), s).
Proof.
  intros Ej. unfold LocalStrands.put_dynamodb_item. run. rewrite Ej.
  reflexivity.
Qed.

End Facts.
End LocalFacts.

(** ** Properties that span the servers *)

Module ServerFacts.
Section Facts.

Context {W : Type} {backend : Backend W} {runtime : Runtime} {sdk : Sdk}.

(** C1, as the code has it: when the body of a tool's own [try] block
    raises, the [except] clause of that block catches the exception and
    the call returns, as an ordinary result, one text block that
    describes the failure: ["Error: "] and the message in the
    [get_s3_object] and [query_dynamodb] branches of [call_tool],
    ["Error getting S3 object: "] and the message in the FastMCP
    [get_s3_object].  The exception does not leave the call, and no
    error flag is attached to the result. *)
Theorem handler_exception_is_text (s s1 : state W) (e : exn) :
  (forall arguments bucket key,
      arguments !! "bucket" = Some bucket ->
      arguments !! "key" = Some key ->
      Subprocess.get_s3_object_try bucket key
        (logged s ["[SERVER] call_tool: get_s3_object with "
                     +:+ str_dict arguments])
        = (Raise e, s1) ->
      Subprocess.call_tool "get_s3_object" arguments s
        = (Return [Subprocess.text_content ("Error: " +:+ str_exn e)], s1))
  /\ (forall arguments table_name key value,
      arguments !! "table_name" = Some table_name ->
      arguments !! "key" = Some key ->
      arguments !! "value" = Some value ->
      Subprocess.query_dynamodb_try table_name key value
        (logged s ["[SERVER] call_tool: query_dynamodb with "
                     +:+ str_dict arguments])
        = (Raise e, s1) ->
      Subprocess.call_tool "query_dynamodb" arguments s
        = (Return [Subprocess.text_content ("Error: " +:+ str_exn e)], s1))
  /\ (forall bucket key,
      SubprocessStrands.get_s3_object_try bucket key
        (logged s ["[SERVER] get_s3_object called: bucket=" +:+ bucket
                     +:+ ", key=" +:+ key])
        = (Raise e, s1) ->
      SubprocessStrands.get_s3_object bucket key s
        = (Return ("Error getting S3 object: " +:+ str_exn e),
           logged s1 ["[SERVER] ERROR: Error getting S3 object: " +:+ str_exn e])).
Proof.
  assert (E1 : String.eqb "get_s3_object" "list_s3_buckets" = false)
    by reflexivity.
  assert (E2 : String.eqb "query_dynamodb" "list_s3_buckets" = false)
    by reflexivity.
  assert (E3 : String.eqb "query_dynamodb" "get_s3_object" = false)
    by reflexivity.
  split; [| split].
  - intros arguments bucket key Eb Ek Hbody.
    unfold Subprocess.call_tool, Subprocess.log.
    rewrite bind_print_stderr, E1, String.eqb_refl.
    apply try_except_returned.
    unfold getitem. rewrite Eb, bind_ret, Ek, bind_ret.
    rewrite (try_except_raised _ _ _ _ _ Hbody). reflexivity.
  - intros arguments table_name key value Et Ek Ev Hbody.
    unfold Subprocess.call_tool, Subprocess.log.
    rewrite bind_print_stderr, E2, E3, String.eqb_refl.
    apply try_except_returned.
    unfold getitem. rewrite Et, bind_ret, Ek, bind_ret, Ev, bind_ret.
    rewrite (try_except_raised _ _ _ _ _ Hbody). reflexivity.
  - intros bucket key Hbody.
    unfold SubprocessStrands.get_s3_object, SubprocessStrands.log.
    rewrite bind_print_stderr.
    rewrite (try_except_raised _ _ _ _ _ Hbody). reflexivity.
Qed.

(** C6: the two stdio servers never write to standard output.  Running
    either script, from start-up through any sequence of requests,
    leaves standard output as it was; so do [list_tools] and [call_tool]
    taken alone; and [log] appends its line, marked [[SERVER]], to
    standard error. *)
Theorem stdio_servers_keep_stdout :
  (forall env reqs (s : state W),
      stdout (snd (Subprocess.script env reqs s)) = stdout s)
  /\ (forall env reqs (s : state W),
      stdout (snd (SubprocessStrands.script env reqs s)) = stdout s)
  /\ (forall (s : state W), stdout (snd (Subprocess.list_tools s)) = stdout s)
  /\ (forall name arguments (s : state W),
      stdout (snd (Subprocess.call_tool name arguments s)) = stdout s)
  /\ (forall c (s : state W),
      stdout (snd (SubprocessStrands.run_tool c s)) = stdout s)
  /\ (forall message (s : state W),
      Subprocess.log message s = (Return tt, logged s ["[SERVER] " +:+ message])
      /\ SubprocessStrands.log message s
         = (Return tt, logged s ["[SERVER] " +:+ message])).
Proof.
  split; [intros; apply SubprocessFacts.script_quiet |].
  split; [intros; apply SubprocessStrandsFacts.strands_script_quiet |].
  split; [intros; apply SubprocessFacts.list_tools_quiet |].
  split; [intros; apply SubprocessFacts.call_tool_quiet |].
  split; [intros; apply SubprocessStrandsFacts.run_tool_quiet |].
  intros message s. split; reflexivity.
Qed.

(** C7: when the construction of a backend client fails at start-up,
    either stdio server logs the failure to standard error and exits
    with status 1, a non-zero status; whatever requests a client would
    send, none is handled: no response is produced, the backend is not
    called and nothing but the three start-up lines is logged. *)
Theorem client_failure_exits_nonzero env reqs reqs' (s : state W) :
  (exists e, client env "s3" "us-east-1" = Err e)
  \/ (exists e, client env "dynamodb" "us-east-1" = Err e) ->
  exists e,
    Subprocess.script env reqs s
    = (Exit 1,
       logged s ["[SERVER] Starting AWS MCP Server...";
                 "[SERVER] Initializing AWS clients...";
                 "[SERVER] ERROR initializing AWS clients: " +:+ str_exn e])
    /\ SubprocessStrands.script env reqs' s
       = (Exit 1,
          logged s ["[SERVER] Starting AWS MCP Server with FastMCP...";
                    "[SERVER] Initializing AWS clients...";
                    "[SERVER] ERROR initializing AWS clients: " +:+ str_exn e])
    /\ exit_status (fst (Subprocess.script env reqs s)) <> 0%Z
    /\ exit_status (fst (SubprocessStrands.script env reqs' s)) <> 0%Z.
Proof.
  intros Hfail.
  assert (Hinit : exists e,
    (client env "s3" "us-east-1" = Err e)
    \/ (exists c, client env "s3" "us-east-1" = Ok c
                  /\ client env "dynamodb" "us-east-1" = Err e)).
  { destruct (client env "s3" "us-east-1") as [c | e1] eqn:E1.
    - destruct Hfail as [[e He] | [e He]]; [discriminate |].
      exists e. right. exists c. auto.
    - exists e1. left. reflexivity. }
  destruct Hinit as (e & Hinit). exists e.
  assert (H1 : Subprocess.script env reqs s
    = (Exit 1,
       logged s ["[SERVER] Starting AWS MCP Server...";
                 "[SERVER] Initializing AWS clients...";
                 "[SERVER] ERROR initializing AWS clients: " +:+ str_exn e])).
  { destruct Hinit as [E1 | (c & E1 & E2)];
      unfold Subprocess.script, Subprocess.init_clients, Subprocess.log;
      run; rewrite E1; simpl; try rewrite E2; simpl;
      unfold logged; simpl; rewrite <- !app_assoc; reflexivity. }
  assert (H2 : SubprocessStrands.script env reqs' s
    = (Exit 1,
       logged s ["[SERVER] Starting AWS MCP Server with FastMCP...";
                 "[SERVER] Initializing AWS clients...";
                 "[SERVER] ERROR initializing AWS clients: " +:+ str_exn e])).
  { destruct Hinit as [E1 | (c & E1 & E2)];
      unfold SubprocessStrands.script, SubprocessStrands.init_clients,
        SubprocessStrands.log;
      run; rewrite E1; simpl; try rewrite E2; simpl;
      unfold logged; simpl; rewrite <- !app_assoc; reflexivity. }
  rewrite H1, H2. simpl. repeat split; discriminate.
Qed.

(** C8, as the code has it: [query_dynamodb] always returns a string,
    whatever the backend does.  When the response holds an ['Item'] that
    is not empty the string is ["Found item: "] followed by the item;
    when the response holds no ['Item'], or an empty one, it is exactly
    ["No item found with {key}={value}"]; when the request raises it is
    ["Error querying DynamoDB: "] followed by the message. *)
Theorem query_dynamodb_total table_name key value (s : state W) :
  (exists text s',
      SubprocessStrands.query_dynamodb table_name key value s = (Return text, s')
      /\ match fst (get_item (VStr table_name) (VStr key) (VStr value) (world s)) with
         | Ok response =>
             match Item response with
             | Some item =>
                 if bool_decide (item = ∅)
                 then text = "No item found with " +:+ key +:+ "=" +:+ value
                 else text = "Found item: " +:+ str_dict item
             | None => text = "No item found with " +:+ key +:+ "=" +:+ value
             end
         | Err e => text = "Error querying DynamoDB: " +:+ str_exn e
         end)
  /\ (exists text s',
      LocalStrands.query_dynamodb table_name key value s = (Return text, s')
      /\ match fst (get_item (VStr table_name) (VStr key) (VStr value) (world s)) with
         | Ok response =>
             match Item response with
             | Some item =>
                 if bool_decide (item = ∅)
                 then text = "No item found with " +:+ key +:+ "=" +:+ value
                 else text = "Found item: " +:+ str_dict item
             | None => text = "No item found with " +:+ key +:+ "=" +:+ value
             end
         | Err e => text = "Error querying DynamoDB: " +:+ str_exn e
         end).
Proof.
  split.
  - apply SubprocessStrandsFacts.strands_query_dynamodb_answer.
  - apply LocalFacts.local_strands_query_dynamodb_answer.
Qed.

(** C9: when [json.loads] refuses [item_json], [put_dynamodb_item]
    returns ["Error putting item to DynamoDB: "] followed by the
    message; neither [Table] nor [put_item] is reached: the trace of
    backend operations and the backend itself are as before. *)
Theorem put_dynamodb_item_invalid_json table_name item_json e (s : state W) :
  json_loads item_json = Err e ->
  SubprocessStrands.put_dynamodb_item table_name item_json s
    = (Return ("Error putting item to DynamoDB: " +:+ str_exn e),
       logged s ["[SERVER] put_dynamodb_item called: table=" +:+ table_name;
                 "[SERVER] ERROR: Error putting item to DynamoDB: " +:+ str_exn e])
  /\ LocalStrands.put_dynamodb_item table_name item_json s
     = (Return ("Error putting item to DynamoDB: " +:+ str_exn e), s)
  /\ calls (snd (SubprocessStrands.put_dynamodb_item table_name item_json s))
     = calls s
  /\ world (snd (SubprocessStrands.put_dynamodb_item table_name item_json s))
     = world s.
Proof.
  intros Ej.
  rewrite (SubprocessStrandsFacts.strands_put_dynamodb_item_invalid _ _ _ _ Ej).
  rewrite (LocalFacts.local_strands_put_dynamodb_item_invalid _ _ _ _ Ej).
  simpl. auto.
Qed.

(** C10, as the code has it: when the backend answers [list_buckets],
    the FastMCP servers return a text whose embedded count is the number
    of buckets in the response, followed by the bucket names in the order
    of the response (joined by [", "] in the stdio server, one
    ["  - name"] line each in the HTTP servers); the [list_s3_buckets]
    branch of [call_tool] returns ["S3 Buckets: "] followed by the names
    joined by [", "], without a count.  When the names are plain (not
    empty, no comma, no line break), reading the names back from each of
    the texts gives exactly the names of the response, in its order. *)
Theorem list_s3_buckets_count_and_names response w' arguments (s : state W) :
  list_buckets (world s) = (Ok response, w') ->
  let names := map Name (Buckets response) in
  let counted := "S3 Buckets (" +:+ str_nat (length names) +:+ "): "
                 +:+ join ", " names in
  fst (SubprocessStrands.list_s3_buckets s) = Return counted
  /\ embedded_count counted = Some (length (Buckets response))
  /\ fst (Local.list_s3_buckets s)
     = Return (("S3 Buckets (" +:+ str_nat (length names) +:+ " total):" +:+ nl)
               +:+ join nl (map (fun b => "  - " +:+ b) names))
  /\ fst (LocalStrands.list_s3_buckets s) = fst (Local.list_s3_buckets s)
  /\ embedded_count (Local.format_buckets names) = Some (length (Buckets response))
  /\ fst (Subprocess.call_tool "list_s3_buckets" arguments s)
     = Return [Subprocess.text_content ("S3 Buckets: " +:+ join ", " names)]
  /\ (Forall (fun n => plain_name n = true) names ->
      listed_names counted = names
      /\ listed_lines (Local.format_buckets names) = names
      /\ listed_names ("S3 Buckets: " +:+ join ", " names) = names).
Proof.
  intros El names counted.
  assert (Hlen : length names = length (Buckets response))
    by (unfold names; apply length_map).
  split; [exact (SubprocessStrandsFacts.strands_list_s3_buckets_text _ _ _ El) |].
  split.
  { rewrite <- Hlen. unfold counted.
    change ("S3 Buckets (" +:+ str_nat (length names) +:+ "): " +:+ join ", " names)
      with ("S3 Buckets " +:+ "(" +:+ str_nat (length names)
            +:+ String ")" (": " +:+ join ", " names)).
    apply embedded_count_spec; reflexivity. }
  split; [exact (LocalFacts.local_list_s3_buckets_text _ _ _ El) |].
  split.
  { rewrite (LocalFacts.local_list_s3_buckets_text _ _ _ El).
    exact (LocalFacts.local_strands_list_s3_buckets_text _ _ _ El). }
  split; [rewrite <- Hlen; apply LocalFacts.format_buckets_count |].
  split.
  { unfold Subprocess.call_tool, Subprocess.log. run. unfold invoke. simpl.
    rewrite El. reflexivity. }
  intros Hall.
  split; [apply counted_text_names; assumption |].
  split; [apply format_buckets_names; assumption |].
  apply plain_text_names; assumption.
Qed.

End Facts.
End ServerFacts.

(** ** The servers run on concrete inputs *)

Module Runs.

Import Mem.
Import Stub.
#[local] Existing Instance Mem.sdk_ok.

(** C3 on the demo account: [delete_bucket] is not a tool. *)
Lemma call_tool_unknown_witness :
  ("delete_bucket" ∉ map Mcp.name Subprocess.tools)
  /\ Subprocess.call_tool "delete_bucket" ∅ (Mem.start Mem.demo)
     = (Raise (ValueError "Unknown tool: delete_bucket"),
        logged (Mem.start Mem.demo)
          ["[SERVER] call_tool: delete_bucket with {}";
           "[SERVER] ERROR in call_tool: Unknown tool: delete_bucket"]).
Proof.
  assert (Hn : "delete_bucket" ∉ map Mcp.name Subprocess.tools).
  { apply (bool_decide_unpack _). vm_compute. exact I. }
  split; [exact Hn |].
  exact (proj1 (SubprocessFacts.call_tool_unknown
                  "delete_bucket" ∅ (Mem.start Mem.demo) Hn)).
Defined.

(** C2 on the demo account: [get_s3_object] called without its
    [key]. *)
Lemma call_tool_missing_required_witness :
  (get_s3_object_tool ∈ Subprocess.tools)
  /\ ("key" ∈ required_params get_s3_object_tool)
  /\ ({[ "bucket" := VStr "logs" ]} : gmap string value) !! "key" = None
  /\ exists q,
      fst (Subprocess.call_tool "get_s3_object" {[ "bucket" := VStr "logs" ]}
             (Mem.start Mem.demo))
        = Raise (KeyError q)
      /\ calls (snd (Subprocess.handle
                       (CallTool "get_s3_object" {[ "bucket" := VStr "logs" ]})
                       (Mem.start Mem.demo))) = [].
Proof.
  assert (Ht : get_s3_object_tool ∈ Subprocess.tools).
  { unfold Subprocess.tools, get_s3_object_tool. in_list. }
  assert (Hp : "key" ∈ required_params get_s3_object_tool).
  { apply (bool_decide_unpack _). vm_compute. exact I. }
  assert (Hk : ({[ "bucket" := VStr "logs" ]} : gmap string value) !! "key" = None).
  { vm_compute. reflexivity. }
  repeat (split; [assumption |]).
  destruct (SubprocessFacts.call_tool_missing_required
              get_s3_object_tool "key" {[ "bucket" := VStr "logs" ]}
              (Mem.start Mem.demo) Ht Hp Hk)
    as (q & _ & _ & Hc & _ & Hcalls & _).
  exists q. split.
  - change (Mcp.name get_s3_object_tool) with "get_s3_object" in Hc.
    rewrite Hc. reflexivity.
  - exact Hcalls.
Defined.

(** C1 as stated fails on [call_tool]: when the backend refuses
    [list_buckets], the exception is logged and raised out of
    [call_tool]; no content is returned. *)
Lemma call_tool_propagates_backend_error :
  list_buckets Stub.all_denied = (Err Stub.denied, Stub.all_denied)
  /\ Subprocess.call_tool "list_s3_buckets" ∅ (Stub.start Stub.all_denied)
     = (Raise Stub.denied,
        mkState [] ["[SERVER] call_tool: list_s3_buckets with {}";
                    "[SERVER] ERROR in call_tool: AccessDenied"]
                [CListBuckets] Stub.all_denied)
  /\ ~ (exists content s',
          Subprocess.call_tool "list_s3_buckets" ∅ (Stub.start Stub.all_denied)
          = (Return content, s')).
Proof.
  assert (Hc : Subprocess.call_tool "list_s3_buckets" ∅ (Stub.start Stub.all_denied)
     = (Raise Stub.denied,
        mkState [] ["[SERVER] call_tool: list_s3_buckets with {}";
                    "[SERVER] ERROR in call_tool: AccessDenied"]
                [CListBuckets] Stub.all_denied)) by reflexivity.
  split; [reflexivity |]. split; [exact Hc |].
  intros (content & s' & Hr). rewrite Hc in Hr. discriminate.
Qed.

(** C1 as amended, on the demo account: [get_s3_object] on a bucket
    that does not exist. *)
Lemma handler_exception_is_text_witness :
  Subprocess.call_tool "get_s3_object"
    {[ "bucket" := VStr "nope"; "key" := VStr "a.txt" ]} (Mem.start Mem.demo)
  = (Return [Subprocess.text_content "Error: NoSuchBucket"],
     mkState [] ["[SERVER] call_tool: get_s3_object with "
                   +:+ str_dict {[ "bucket" := VStr "nope"; "key" := VStr "a.txt" ]}]
             [CGetObject (VStr "nope") (VStr "a.txt")] Mem.demo).
Proof.
  apply (proj1 (ServerFacts.handler_exception_is_text
                  (Mem.start Mem.demo) _ (ClientError "NoSuchBucket"))
           {[ "bucket" := VStr "nope"; "key" := VStr "a.txt" ]}
           (VStr "nope") (VStr "a.txt")).
  - vm_compute. reflexivity.
  - vm_compute. reflexivity.
  - reflexivity.
Defined.

(** C5 fails on the stdio servers: with [AWS_DEFAULT_REGION] set to
    [eu-west-1], the client shows that region as the one in use and
    hands the environment to the server unchanged, and both servers
    build their clients for [us-east-1]. *)
Lemma subprocess_region_ignores_environment :
  let env : environ := {[ "AWS_DEFAULT_REGION" := "eu-west-1" ]} in
  SubprocessClient.aws_region env = "eu-west-1"
  /\ SubprocessClient.server_env env = env
  /\ fst (Subprocess.init_clients (SubprocessClient.server_env env)
            (Mem.start Mem.demo))
     = Return ({| service := "s3"; client_region := "us-east-1" |},
               {| service := "dynamodb"; client_region := "us-east-1" |})
  /\ fst (SubprocessStrands.init_clients (SubprocessClient.server_env env)
            (Mem.start Mem.demo))
     = Return ({| service := "s3"; client_region := "us-east-1" |},
               {| service := "dynamodb"; client_region := "us-east-1" |},
               {| service := "dynamodb"; client_region := "us-east-1" |})
  /\ (client_region <$> (Local.s3_client <$>
        match fst (Local.init_clients env (Mem.start Mem.demo)) with
        | Return c => Some c
        | _ => None
        end)) = Some "eu-west-1".
Proof.
  cbv zeta. repeat split; vm_compute; reflexivity.
Qed.

(** C7 on an SDK that cannot build the DynamoDB client. *)
Lemma client_failure_exits_nonzero_witness :
  ((exists e, client (sdk := Mem.sdk_no_dynamodb) ∅ "s3" "us-east-1" = Err e)
   \/ (exists e, client (sdk := Mem.sdk_no_dynamodb) ∅ "dynamodb" "us-east-1" = Err e))
  /\ exit_status
       (fst (Subprocess.script (sdk := Mem.sdk_no_dynamodb) ∅
               [ListTools; CallTool "list_s3_buckets" ∅] (Mem.start Mem.demo)))
     <> 0%Z.
Proof.
  assert (Hf : (exists e, client (sdk := Mem.sdk_no_dynamodb) ∅ "s3" "us-east-1" = Err e)
   \/ (exists e, client (sdk := Mem.sdk_no_dynamodb) ∅ "dynamodb" "us-east-1" = Err e)).
  { right. eexists. reflexivity. }
  split; [exact Hf |].
  destruct (ServerFacts.client_failure_exits_nonzero
              (sdk := Mem.sdk_no_dynamodb) ∅
              [ListTools; CallTool "list_s3_buckets" ∅]
              [SubprocessStrands.ListS3Buckets] (Mem.start Mem.demo) Hf)
    as (e & _ & _ & Hs & _).
  exact Hs.
Defined.

(** C8 as stated fails: a response that holds an empty ['Item'] is
    answered with "No item found". *)
Lemma query_dynamodb_empty_item_not_found :
  get_item (VStr "users") (VStr "id") (VStr "7") (Stub.with_item (Some ∅))
    = (Ok {| Item := Some ∅ |}, Stub.with_item (Some ∅))
  /\ fst (SubprocessStrands.query_dynamodb "users" "id" "7"
            (Stub.start (Stub.with_item (Some ∅))))
     = Return "No item found with id=7"
  /\ fst (LocalStrands.query_dynamodb "users" "id" "7"
            (Stub.start (Stub.with_item (Some ∅))))
     = Return "No item found with id=7"
  /\ String.prefix "Found item: " "No item found with id=7" = false.
Proof.
  repeat split; vm_compute; reflexivity.
Qed.

(** C9 on the demo account: a text that is not JSON. *)
Lemma put_dynamodb_item_invalid_json_witness :
  json_loads "{oops" = Err (JSONDecodeError "Expecting value: line 1 column 1 (char 0)")
  /\ fst (SubprocessStrands.put_dynamodb_item "users" "{oops" (Mem.start Mem.demo))
     = Return "Error putting item to DynamoDB: Expecting value: line 1 column 1 (char 0)"
  /\ calls (snd (SubprocessStrands.put_dynamodb_item "users" "{oops"
                   (Mem.start Mem.demo))) = []
  /\ world (snd (SubprocessStrands.put_dynamodb_item "users" "{oops"
                   (Mem.start Mem.demo))) = Mem.demo.
Proof.
  assert (Hj : json_loads "{oops"
               = Err (JSONDecodeError "Expecting value: line 1 column 1 (char 0)"))
    by reflexivity.
  split; [exact Hj |].
  destruct (ServerFacts.put_dynamodb_item_invalid_json
              "users" "{oops" _ (Mem.start Mem.demo) Hj)
    as (Hs & _ & Hc & Hw).
  rewrite Hs. repeat split; assumption.
Defined.

(** C10 as stated fails on [call_tool]: its text carries no count. *)
Lemma call_tool_buckets_text_has_no_count :
  list_buckets (Stub.with_buckets ["logs"; "media"])
    = (Ok {| Buckets := [ {| Name := "logs"; CreationDate := "" |};
                          {| Name := "media"; CreationDate := "" |} ] |},
       Stub.with_buckets ["logs"; "media"])
  /\ fst (Subprocess.call_tool "list_s3_buckets" ∅
            (Stub.start (Stub.with_buckets ["logs"; "media"])))
     = Return [Subprocess.text_content "S3 Buckets: logs, media"]
  /\ embedded_count "S3 Buckets: logs, media" = None
  /\ embedded_count "S3 Buckets: logs, media" <> Some 2.
Proof.
  repeat split; try (vm_compute; reflexivity).
  vm_compute. discriminate.
Qed.

(** C10 as amended, on the demo account. *)
Lemma list_s3_buckets_count_and_names_witness :
  list_buckets Mem.demo
    = (Ok {| Buckets := [ {| Name := "logs"; CreationDate := "" |};
                          {| Name := "media"; CreationDate := "" |} ] |},
       Mem.demo)
  /\ fst (SubprocessStrands.list_s3_buckets (Mem.start Mem.demo))
     = Return "S3 Buckets (2): logs, media"
  /\ embedded_count "S3 Buckets (2): logs, media" = Some 2
  /\ listed_names "S3 Buckets (2): logs, media" = ["logs"; "media"].
Proof.
  assert (Hl : list_buckets (world (Mem.start Mem.demo))
    = (Ok {| Buckets := [ {| Name := "logs"; CreationDate := "" |};
                          {| Name := "media"; CreationDate := "" |} ] |},
       Mem.demo)) by reflexivity.
  split; [exact Hl |].
  destruct (ServerFacts.list_s3_buckets_count_and_names _ _ ∅
              (Mem.start Mem.demo) Hl) as (Ht & Hc & _ & _ & _ & _ & Hn).
  split; [exact Ht |]. split; [exact Hc |].
  apply Hn. repeat constructor.
Defined.

(** C4 on the decorated functions of the strands scripts. *)
Lemma list_tools_stable_witness :
  NoDup (map fn_name strands_decorated)
  /\ exists r,
      Registry.register_all fn_name strands_decorated [] = inr r
      /\ Registry.list_all r = strands_decorated.
Proof.
  assert (Hnd : NoDup (map fn_name strands_decorated)).
  { apply (bool_decide_unpack _). vm_compute. exact I. }
  split; [exact Hnd |].
  destruct (proj1 (proj2 (proj2 (proj2
              (SubprocessFacts.list_tools_stable (W := Mem.account)))))
              decorated fn_name strands_decorated Hnd) as (r & Hr & Hl & _).
  exists r. split; assumption.
Defined.

End Runs.

(** * Further properties of the servers *)

(** ** More laws of the execution monad *)

Section MoreLaws.

Context {W : Type}.

Lemma returns_ret {A} (a : A) : returns (W := W) (ret a).
Proof. intros s. eexists _, _. reflexivity. Qed.

Lemma returns_print_stderr line : returns (W := W) (print_stderr line).
Proof. intros s. eexists _, _. reflexivity. Qed.

Lemma returns_bind {A B} (m : M W A) (k : A -> M W B) :
  returns m -> (forall a, returns (k a)) -> returns (bind m k).
Proof.
  intros Hm Hk s. unfold bind. destruct (Hm s) as (a & s' & E). rewrite E.
  apply Hk.
Qed.

Lemma returns_if {A} (b : bool) (m1 m2 : M W A) :
  returns m1 -> returns m2 -> returns (if b then m1 else m2).
Proof. destruct b; auto. Qed.

(** A [try] whose body stays in the process and whose handler returns,
    returns. *)
Lemma returns_try_except {A} (m : M W A) (h : exn -> M W A) :
  stays m -> (forall e, returns (h e)) -> returns (try_except m h).
Proof.
  intros Hm Hh s. apply try_except_returns; [assumption |].
  intros e s'. apply Hh.
Qed.

End MoreLaws.

Create HintDb returns.
#[export] Hint Resolve returns_ret returns_print_stderr returns_bind
  returns_if returns_try_except : returns.

(** Case analysis on every test and every answer of the backend that a run
    meets. *)
Ltac cases :=
  repeat match goal with
    | |- context [match ?x with _ => _ end] =>
        lazymatch x with
        | context [match _ with _ => _ end] => fail
        | _ => destruct x eqn:?; simpl in *
        end
    end.

(** ** The FastMCP tools *)

Module ToolFacts.
Section Facts.

Context {W : Type} {backend : Backend W} {runtime : Runtime} {sdk : Sdk}.

Lemma strands_run_tool_returns c : returns (W := W) (SubprocessStrands.run_tool c).
Proof.
  destruct c; simpl;
    unfold SubprocessStrands.list_s3_buckets, SubprocessStrands.get_s3_object,
      SubprocessStrands.get_s3_object_try, SubprocessStrands.put_s3_object,
      SubprocessStrands.list_dynamodb_tables, SubprocessStrands.query_dynamodb,
      SubprocessStrands.put_dynamodb_item, SubprocessStrands.log;
    eauto 20 with returns stays.
Qed.

Lemma strands_mcp_run_returns reqs (s : state W) :
  exists texts s',
    SubprocessStrands.mcp_run reqs s = (Return texts, s')
    /\ length texts = length reqs.
Proof.
  revert s. induction reqs as [| c reqs IH]; intros s.
  - eexists _, _. split; reflexivity.
  - destruct (strands_run_tool_returns c s) as (x & s1 & Hx).
    destruct (IH s1) as (xs & s2 & Hxs & Hlen).
    exists (x :: xs), s2. split.
    + simpl. unfold bind. rewrite Hx, Hxs. reflexivity.
    + simpl. rewrite Hlen. reflexivity.
Qed.

(** X7: Every tool of the FastMCP stdio server returns a string, whatever the
    backend does: each one catches every exception of its body.  So a
    tool call never ends [mcp.run]: [main] answers every request it is
    given and does not reach its [FATAL ERROR] branch. *)
Theorem strands_tools_always_answer :
  (forall c (s : state W),
      exists text s', SubprocessStrands.run_tool c s = (Return text, s'))
  /\ (forall reqs (s : state W),
        exists texts s',
          SubprocessStrands.main reqs s = (Return texts, s')
          /\ length texts = length reqs
          /\ SubprocessStrands.mcp_run reqs
               (logged s ["[SERVER] Starting FastMCP server with stdio transport..."])
             = (Return texts, s')).
Proof.
  split; [exact strands_run_tool_returns |].
  intros reqs s.
  destruct (strands_mcp_run_returns reqs
              (logged s ["[SERVER] Starting FastMCP server with stdio transport..."]))
    as (texts & s' & Hrun & Hlen).
  exists texts, s'. unfold SubprocessStrands.main, SubprocessStrands.log.
  rewrite bind_print_stderr, (try_except_returned _ _ _ _ _ Hrun).
  auto.
Qed.

(** X8: The tools of the FastMCP HTTP server return a string too, and they
    print nothing: both output streams are as before the call. *)
Theorem local_strands_tools_answer_silently c (s : state W) :
  exists text s',
    LocalStrands.run_tool c s = (Return text, s')
    /\ stdout s' = stdout s
    /\ stderr s' = stderr s.
Proof.
  destruct c; simpl;
    unfold LocalStrands.list_s3_buckets, LocalStrands.get_s3_object,
      LocalStrands.put_s3_object, LocalStrands.list_dynamodb_tables,
      LocalStrands.query_dynamodb, LocalStrands.put_dynamodb_item;
    run; unfold invoke, key_dict; simpl; cases; eexists _, _; eauto.
Qed.

(** X9: A call of a FastMCP tool sends exactly one request to the backend, the
    one that goes with the tool and its arguments, whether the backend
    accepts it or not; the one exception is [put_dynamodb_item] on a text
    that [json.loads] refuses, which sends none. *)
Theorem tool_sends_its_request c (s : state W) :
  calls (snd (SubprocessStrands.run_tool c s))
    = calls s ++ match tool_request c with Some x => [x] | None => [] end
  /\ calls (snd (LocalStrands.run_tool c s))
     = calls s ++ match tool_request c with Some x => [x] | None => [] end.
Proof.
  destruct c; simpl;
    unfold SubprocessStrands.list_s3_buckets, SubprocessStrands.get_s3_object,
      SubprocessStrands.get_s3_object_try, SubprocessStrands.put_s3_object,
      SubprocessStrands.list_dynamodb_tables, SubprocessStrands.query_dynamodb,
      SubprocessStrands.put_dynamodb_item, SubprocessStrands.log,
      LocalStrands.list_s3_buckets, LocalStrands.get_s3_object,
      LocalStrands.put_s3_object, LocalStrands.list_dynamodb_tables,
      LocalStrands.query_dynamodb, LocalStrands.put_dynamodb_item;
    run; unfold invoke, key_dict; simpl; cases;
    rewrite ?app_nil_r; split; reflexivity.
Qed.

End Facts.
End ToolFacts.

(** ** [call_tool] of the low-level server *)

Module CallToolFacts.
Section Facts.

Context {W : Type} {backend : Backend W} {runtime : Runtime} {sdk : Sdk}.

Import Subprocess.



(** X3: [call_tool] reads the required parameters of the tool and nothing
    else of the arguments: two calls of a listed tool whose arguments
    agree on those parameters end the same way and do the same to the
    backend.  Extra arguments are not rejected, and [list_s3_buckets]
    ignores its arguments altogether. *)
Theorem call_tool_reads_required_only t arguments1 arguments2 (s : state W) :
  t ∈ tools ->
  (forall p, p ∈ required_params t -> arguments1 !! p = arguments2 !! p) ->
  fst (call_tool (Mcp.name t) arguments1 s) = fst (call_tool (Mcp.name t) arguments2 s)
  /\ calls (snd (call_tool (Mcp.name t) arguments1 s))
     = calls (snd (call_tool (Mcp.name t) arguments2 s))
  /\ world (snd (call_tool (Mcp.name t) arguments1 s))
     = world (snd (call_tool (Mcp.name t) arguments2 s)).
Proof.
  intros Ht Hagree. unfold tools in Ht.
  repeat (apply elem_of_cons in Ht as [-> | Ht]);
    [ | | | apply elem_of_nil in Ht; contradiction ];
    unfold required_params in Hagree; simpl in Hagree |- *.
  - unfold call_tool, log. run. unfold invoke. simpl. cases; auto.
  - assert (Eb : arguments1 !! "bucket" = arguments2 !! "bucket")
      by (apply Hagree; in_list).
    assert (Ek : arguments1 !! "key" = arguments2 !! "key")
      by (apply Hagree; in_list).
    unfold call_tool, get_s3_object_try, log, getitem. run.
    rewrite Eb, Ek. unfold invoke. simpl. cases; auto.
  - assert (Et : arguments1 !! "table_name" = arguments2 !! "table_name")
      by (apply Hagree; in_list).
    assert (Ek : arguments1 !! "key" = arguments2 !! "key")
      by (apply Hagree; in_list).
    assert (Ev : arguments1 !! "value" = arguments2 !! "value")
      by (apply Hagree; in_list).
    unfold call_tool, query_dynamodb_try, log, getitem. run.
    rewrite Et, Ek, Ev. unfold invoke, key_dict, Table. simpl. cases; auto.
Qed.


Lemma query_arguments_lookup table_name key val :
  query_arguments table_name key val !! "table_name" = Some (VStr table_name)
  /\ query_arguments table_name key val !! "key" = Some (VStr key)
  /\ query_arguments table_name key val !! "value" = Some (VStr val).
Proof. repeat split; reflexivity. Qed.

(** X6: A table that holds no item for the key is not an error for the
    [query_dynamodb] of [call_tool] and of [local/mcp_server.py]: with no
    ['Item'] in the response both return the text of the empty
    dictionary, where the FastMCP servers say "No item found". *)
Theorem query_dynamodb_without_item table_name key val response w' (s : state W) :
  get_item (VStr table_name) (VStr key) (VStr val) (world s) = (Ok response, w') ->
  Item response = None ->
  fst (call_tool "query_dynamodb" (query_arguments table_name key val) s)
    = Return [text_content (str_dict ∅)]
  /\ fst (Local.query_dynamodb table_name key val s) = Return (str_dict ∅)
  /\ fst (LocalStrands.query_dynamodb table_name key val s)
     = Return ("No item found with " +:+ key +:+ "=" +:+ val).
Proof.
  intros Eg Ei.
  destruct (query_arguments_lookup table_name key val) as (Et & Ek & Ev).
  unfold call_tool, query_dynamodb_try, Local.query_dynamodb,
    LocalStrands.query_dynamodb, log, getitem.
  run. rewrite Et, Ek, Ev. unfold invoke, key_dict, Table. simpl.
  rewrite Eg. simpl. rewrite Ei. simpl. auto.
Qed.

(** X4: Whenever [call_tool] returns, it returns exactly one content block,
    of type ["text"]: the [content[0].text] that the clients read is
    always there. *)
Theorem call_tool_returns_one_text_block n arguments (s s' : state W) l :
  call_tool n arguments s = (Return l, s') ->
  exists t, l = [text_content t] /\ type (text_content t) = "text".
Proof.
  unfold call_tool, get_s3_object_try, query_dynamodb_try, log, getitem.
  run. unfold invoke, key_dict, Table. simpl.
  cases; intros [= <- _]; eexists; split; reflexivity.
Qed.





End Facts.
End CallToolFacts.

(** ** Listing, start-up and round trips *)

Module AccountFacts.
Section Facts.

Context {W : Type} {backend : Backend W} {runtime : Runtime} {sdk : Sdk}.

(** X12: When the backend answers [list_tables], the FastMCP servers return a
    text whose embedded count is the number of table names of the
    response, followed by the names in the order of the response; a
    response without ['TableNames'] counts as no table, and the stdio
    server then returns exactly ["DynamoDB Tables (0): "].  When every
    name of the response is plain, that is not empty and without comma
    and line break, reading the names back from either text gives the
    names of the response, in order. *)
Theorem list_dynamodb_tables_count_and_names response w' (s : state W) :
  list_tables (world s) = (Ok response, w') ->
  let tables := default [] (TableNames response) in
  let counted := "DynamoDB Tables (" +:+ str_nat (length tables) +:+ "): "
                 +:+ join ", " tables in
  fst (SubprocessStrands.list_dynamodb_tables s) = Return counted
  /\ embedded_count counted = Some (length tables)
  /\ fst (LocalStrands.list_dynamodb_tables s)
     = Return (LocalStrands.format_tables tables)
  /\ embedded_count (LocalStrands.format_tables tables) = Some (length tables)
  /\ (TableNames response = None -> counted = "DynamoDB Tables (0): ")
  /\ (Forall (fun n => plain_name n = true) tables ->
      listed_names counted = tables
      /\ listed_lines (LocalStrands.format_tables tables) = tables).
Proof.
  intros El tables counted.
  split.
  { unfold SubprocessStrands.list_dynamodb_tables, SubprocessStrands.log.
    run. unfold invoke. simpl. rewrite El. reflexivity. }
  split.
  { unfold counted.
    change ("DynamoDB Tables (" +:+ str_nat (length tables) +:+ "): "
            +:+ join ", " tables)
      with ("DynamoDB Tables " +:+ "(" +:+ str_nat (length tables)
            +:+ String ")" (": " +:+ join ", " tables)).
    apply embedded_count_spec; reflexivity. }
  split.
  { unfold LocalStrands.list_dynamodb_tables. run. unfold invoke. simpl.
    rewrite El. reflexivity. }
  split.
  { unfold LocalStrands.format_tables. rewrite !str_app_assoc.
    change ("DynamoDB Tables (" +:+ str_nat (length tables) +:+ " total):" +:+ nl
            +:+ join nl (map (fun t => "  - " +:+ t) tables))
      with ("DynamoDB Tables " +:+ "(" +:+ str_nat (length tables)
            +:+ String " " ("total):" +:+ nl
                            +:+ join nl (map (fun t => "  - " +:+ t) tables))).
    apply embedded_count_spec; reflexivity. }
  split.
  { intros Hn. unfold counted, tables. rewrite Hn. reflexivity. }
  intros Hall. split.
  - unfold counted.
    replace ("DynamoDB Tables (" +:+ str_nat (length tables) +:+ "): "
             +:+ join ", " tables)
      with (("DynamoDB Tables (" +:+ str_nat (length tables) +:+ ")")
            +:+ ": " +:+ join ", " tables)
      by (rewrite !str_app_assoc; reflexivity).
    apply listed_names_spec; [| assumption].
    rewrite !free_of_app, free_of_str_nat by reflexivity. reflexivity.
  - unfold LocalStrands.format_tables.
    replace (("DynamoDB Tables (" +:+ str_nat (length tables) +:+ " total):" +:+ nl)
             +:+ join nl (map (fun t => "  - " +:+ t) tables))
      with (("DynamoDB Tables (" +:+ str_nat (length tables) +:+ " total):")
            +:+ nl +:+ join nl (map (fun t => "  - " +:+ t) tables))
      by (rewrite !str_app_assoc; reflexivity).
    apply listed_lines_spec; [| assumption].
    rewrite !free_of_app, free_of_str_nat by reflexivity. reflexivity.
Qed.

(** X13: When the backend refuses [list_buckets], the [list_s3_buckets] of
    [local/mcp_server.py], which has no [try], raises the exception of the
    backend, while the FastMCP servers with a [try] return it as a
    text. *)
Theorem list_s3_buckets_failure e w' (s : state W) :
  list_buckets (world s) = (Err e, w') ->
  fst (Local.list_s3_buckets s) = Raise e
  /\ fst (LocalStrands.list_s3_buckets s)
     = Return ("Error listing S3 buckets: " +:+ str_exn e)
  /\ fst (SubprocessStrands.list_s3_buckets s)
     = Return ("Error listing S3 buckets: " +:+ str_exn e).
Proof.
  intros El.
  unfold Local.list_s3_buckets, LocalStrands.list_s3_buckets,
    SubprocessStrands.list_s3_buckets, SubprocessStrands.log.
  run. unfold invoke. simpl. rewrite El. simpl. auto.
Qed.


(** X15: How [local/mcp_server.py] configures its clients at start-up: the
    profile is [AWS_PROFILE] when it is set and not empty, and no profile
    otherwise; the region is [AWS_DEFAULT_REGION], or [us-east-1] when it
    is not set, for the session and for the three clients; and the
    credentials are checked with exactly one [get_caller_identity]
    request.  Nothing goes to standard error. *)
Theorem local_init_configuration env (s s' : state W) c :
  Local.init_clients env s = (Return c, s') ->
  profile_name (Local.session c)
    = (if truthy_getenv (env !! "AWS_PROFILE") then env !! "AWS_PROFILE" else None)
  /\ region_name (Local.session c) = default "us-east-1" (env !! "AWS_DEFAULT_REGION")
  /\ client_region (Local.s3_client c) = region_name (Local.session c)
  /\ client_region (Local.dynamodb c) = region_name (Local.session c)
  /\ client_region (Local.sts c) = region_name (Local.session c)
  /\ calls s' = calls s ++ [CGetCallerIdentity]
  /\ stderr s' = stderr s.
Proof.
  unfold Local.init_clients, session_client, new_session, client. run.
  generalize (default "us-east-1" (env !! "AWS_DEFAULT_REGION")). intros r.
  destruct (truthy_getenv (env !! "AWS_PROFILE")); simpl;
    destruct (session_error env _ r); simpl; try discriminate;
    destruct (client_error env "s3" r); simpl; try discriminate;
    destruct (client_error env "dynamodb" r); simpl; try discriminate;
    destruct (client_error env "sts" r); simpl; try discriminate;
    unfold invoke; simpl;
    destruct (get_caller_identity (world s)) as [[i | e] w]; simpl;
    try discriminate;
    intros [= <- <-]; simpl; auto 10.
Qed.


End Facts.
End AccountFacts.

(** ** The servers with their clients *)

Module ClientFacts.
Section Facts.

Context {W : Type} {endpoints : Endpoints W} {runtime : Runtime} {sdk : Sdk}.









End Facts.
End ClientFacts.

(** ** More runs on concrete inputs *)

Module MoreRuns.

Import Mem.
Import Stub.
#[local] Existing Instance Mem.sdk_ok.


(** [get_s3_object] with an argument it does not know. *)
Lemma call_tool_reads_required_only_witness :
  fst (Subprocess.call_tool "get_s3_object"
         {[ "bucket" := VStr "logs"; "key" := VStr "a.txt" ]} (Mem.start Mem.demo))
  = fst (Subprocess.call_tool "get_s3_object"
           {[ "bucket" := VStr "logs"; "key" := VStr "a.txt";
              "version" := VInt 3 ]} (Mem.start Mem.demo)).
Proof.
  assert (Ht : get_s3_object_tool ∈ Subprocess.tools).
  { unfold Subprocess.tools, get_s3_object_tool. in_list. }
  refine (proj1 (CallToolFacts.call_tool_reads_required_only
                   get_s3_object_tool _ _ (Mem.start Mem.demo) Ht _)).
  intros p Hp. unfold required_params in Hp. simpl in Hp.
  rewrite !elem_of_cons, elem_of_nil in Hp.
  destruct Hp as [-> | [-> | []]]; vm_compute; reflexivity.
Defined.

(** A key that the [users] table of the demo account does not hold. *)
Lemma query_dynamodb_without_item_witness :
  get_item (VStr "users") (VStr "id") (VStr "99") (world (Mem.start Mem.demo))
    = (Ok {| Item := None |}, Mem.demo)
  /\ fst (Local.query_dynamodb "users" "id" "99" (Mem.start Mem.demo)) = Return "{}"
  /\ fst (LocalStrands.query_dynamodb "users" "id" "99" (Mem.start Mem.demo))
     = Return "No item found with id=99".
Proof.
  assert (Hg : get_item (VStr "users") (VStr "id") (VStr "99")
                 (world (Mem.start Mem.demo))
               = (Ok {| Item := None |}, Mem.demo)).
  { vm_compute. reflexivity. }
  split; [exact Hg |].
  destruct (CallToolFacts.query_dynamodb_without_item
              "users" "id" "99" _ _ (Mem.start Mem.demo) Hg eq_refl)
    as (_ & Hl & Hs).
  split; [exact Hl | exact Hs].
Defined.

(** The tables of the demo account. *)
Lemma list_dynamodb_tables_count_and_names_witness :
  list_tables (world (Mem.start Mem.demo))
    = (Ok {| TableNames := Some ["users"] |}, Mem.demo)
  /\ fst (SubprocessStrands.list_dynamodb_tables (Mem.start Mem.demo))
     = Return "DynamoDB Tables (1): users"
  /\ embedded_count "DynamoDB Tables (1): users" = Some 1
  /\ listed_names "DynamoDB Tables (1): users" = ["users"].
Proof.
  assert (Hl : list_tables (world (Mem.start Mem.demo))
               = (Ok {| TableNames := Some ["users"] |}, Mem.demo))
    by reflexivity.
  split; [exact Hl |].
  destruct (AccountFacts.list_dynamodb_tables_count_and_names
              _ _ (Mem.start Mem.demo) Hl) as (Ht & Hc & _ & _ & _ & Hn).
  split; [exact Ht |]. split; [exact Hc |].
  apply Hn. repeat constructor.
Defined.

(** A backend that denies [list_buckets]. *)
Lemma list_s3_buckets_failure_witness :
  list_buckets (world (Stub.start Stub.all_denied))
    = (Err Stub.denied, Stub.all_denied)
  /\ fst (Local.list_s3_buckets (Stub.start Stub.all_denied)) = Raise Stub.denied
  /\ fst (LocalStrands.list_s3_buckets (Stub.start Stub.all_denied))
     = Return "Error listing S3 buckets: AccessDenied".
Proof.
  assert (Hl : list_buckets (world (Stub.start Stub.all_denied))
               = (Err Stub.denied, Stub.all_denied)) by reflexivity.
  split; [exact Hl |].
  destruct (AccountFacts.list_s3_buckets_failure
              _ _ (Stub.start Stub.all_denied) Hl) as (H1 & H2 & _).
  split; [exact H1 | exact H2].
Defined.


(** A start-up with a profile and a region in the environment. *)
Lemma local_init_configuration_witness :
  exists c s',
    Local.init_clients {[ "AWS_PROFILE" := "dev"; "AWS_DEFAULT_REGION" := "eu-west-1" ]}
      (Mem.start Mem.demo) = (Return c, s')
    /\ profile_name (Local.session c) = Some "dev"
    /\ region_name (Local.session c) = "eu-west-1"
    /\ client_region (Local.s3_client c) = "eu-west-1".
Proof.
  destruct (Local.init_clients
              {[ "AWS_PROFILE" := "dev"; "AWS_DEFAULT_REGION" := "eu-west-1" ]}
              (Mem.start Mem.demo)) as [[c | e | x] s'] eqn:Hi;
    [ | vm_compute in Hi; discriminate | vm_compute in Hi; discriminate ].
  exists c, s'. split; [reflexivity |].
  destruct (AccountFacts.local_init_configuration _ _ _ _ Hi)
    as (Hp & Hr & H3 & _).
  split; [rewrite Hp; vm_compute; reflexivity |].
  split; [rewrite Hr; vm_compute; reflexivity |].
  rewrite H3, Hr. vm_compute. reflexivity.
Defined.


(** A read of an object of the demo account. *)
Lemma call_tool_returns_one_text_block_witness :
  exists s',
    Subprocess.call_tool "get_s3_object"
      {[ "bucket" := VStr "logs"; "key" := VStr "a.txt" ]} (Mem.start Mem.demo)
    = (Return [Subprocess.text_content "hello"], s')
    /\ exists t, [Subprocess.text_content "hello"] = [Subprocess.text_content t]
                 /\ type (Subprocess.text_content t) = "text".
Proof.
  destruct (Subprocess.call_tool "get_s3_object"
              {[ "bucket" := VStr "logs"; "key" := VStr "a.txt" ]}
              (Mem.start Mem.demo)) as [o s'] eqn:Hc.
  assert (Ho : o = Return [Subprocess.text_content "hello"]).
  { apply (f_equal fst) in Hc. simpl in Hc. rewrite <- Hc. vm_compute. reflexivity. }
  subst o. exists s'. split; [reflexivity |].
  exact (CallToolFacts.call_tool_returns_one_text_block _ _ _ _ _ Hc).
Defined.



(** With [AWS_DEFAULT_REGION] set to another region the clients of the
    two servers differ, and so may their answers: the stdio server reads
    the object in [us-east-1], the HTTP server looks for it in
    [eu-west-1]. *)
Lemma servers_differ_across_regions :
  exists cl s2,
    Local.init_clients (backend := regional "eu-west-1")
      {[ "AWS_DEFAULT_REGION" := "eu-west-1" ]}
      (mkState [] [] [] demo_regions) = (Return cl, s2)
    /\ fst (Local.get_s3_object
              (backend := with_clients (endpoints := regions)
                            (Local.s3_client cl) (Local.dynamodb cl)
                            (Local.dynamodb cl))
              "logs" "a.txt" (mkState [] [] [] demo_regions))
       <> Return "hello"
    /\ fst (Subprocess.call_tool
              (backend := with_clients (endpoints := regions)
                            {| service := "s3"; client_region := "us-east-1" |}
                            {| service := "dynamodb"; client_region := "us-east-1" |}
                            {| service := "dynamodb"; client_region := "us-east-1" |})
              "get_s3_object" (object_arguments "logs" "a.txt")
              (mkState [] [] [] demo_regions))
       = Return [Subprocess.text_content "hello"].
Proof.
  eexists _, _. split; [reflexivity |].
  split; [vm_compute; discriminate | vm_compute; reflexivity].
Qed.


End MoreRuns.
